(** * finmarketpy example scripts: FX option pricing and FX option indices

    The two scripts under [finmarketpy_examples] are glue code: they set
    parameters, call entry points of external libraries (findatapy,
    finmarketpy, pandas, chartpy) and print or plot what comes back.  The
    embedding below keeps that shape.  A script is a program over a module
    namespace whose only effects are calls into the outside world; the outside
    world (the libraries and the Python runtime operations dispatched to
    library objects) is a handler that the theorems quantify over. *)

From stdpp Require Import gmap strings list fin_maps.
From Stdlib Require Import QArith.
Close Scope Q_scope.
Open Scope string_scope.
Open Scope list_scope.
Set Warnings "-register-all".

(** ** Python values *)

(** What the scripts hold in their variables: the builtin constants and
    literals they write, and references to objects made by the libraries. *)
Inductive value : Type :=
| VNone
| VBool (b : bool)
| VInt (z : Z)
| VFloat (q : Q)
| VStr (s : string)
| VList (l : list value)
| VObj (h : nat).

(** [v is None] *)
Definition is_None (v : value) : bool :=
  match v with VNone => true | _ => false end.

(** Keyword arguments, in the order they are written. *)
Abbreviation kwargs := (list (string * value)).

(** ** Calls that leave the script *)

(** Every operation the scripts do not carry out themselves.  [CallFn] is
    a call of an imported callable (a class or a function, by its name in
    the script), [CallMethod] a method call, and the others are the
    operators and attribute accesses that Python dispatches to the object
    they are applied to. *)
Inductive call : Type :=
| CallFn (f : string) (args : list value) (kw : kwargs)
| CallMethod (obj : value) (m : string) (args : list value) (kw : kwargs)
| GetItem (obj key : value)
| GetSlice (obj : value) (lo hi : nat)
| GetAttr (obj : value) (name : string)
| SetAttr (obj : value) (name : string) (v : value)
| BinAdd (a b : value)
| Iter (obj : value).

(** What a call comes back with: a value, or an exception object. *)
Inductive outcome : Type :=
| Returned (v : value)
| Raised (e : value).

(** Exceptions a script run can end with: the two the interpreter raises
    on the script's own operations, and whatever a call raised. *)
Inductive exn : Type :=
| NameError (name : string)
| TypeError (what : string)
| External (e : value).

Inductive result (A : Type) : Type :=
| Ok (a : A)
| Err (e : exn).
Arguments Ok {A} a.
Arguments Err {A} e.

(** ** Programs *)

(** A program is a tree of outside calls: it returns, raises, or makes a
    call and continues with what the call returned.  There is no node for
    catching an exception, because the scripts have no [try] statement. *)
Inductive prog (A : Type) : Type :=
| Ret (a : A)
| Throw (e : exn)
| Call (c : call) (k : value -> prog A).
Arguments Ret {A} a.
Arguments Throw {A} e.
Arguments Call {A} c k.

Fixpoint prog_bind {A B} (p : prog A) (f : A -> prog B) : prog B :=
  match p with
  | Ret a => f a
  | Throw e => Throw e
  | Call c k => Call c (fun v => prog_bind (k v) f)
  end.

(** The module namespace: the dict of module-level variables. *)
Abbreviation namespace := (gmap string value).

(** A piece of script: it runs in a namespace and leaves a namespace. *)
Definition script (A : Type) : Type := namespace -> prog (A * namespace).

Definition script_ret {A} (a : A) : script A := fun ns => Ret (a, ns).

Definition script_bind {A B} (m : script A) (f : A -> script B) : script B :=
  fun ns => prog_bind (m ns) (fun '(a, ns') => f a ns').

#[export] Instance script_mret : MRet script := @script_ret.
#[export] Instance script_mbind : MBind script :=
  fun A B f m => script_bind m f.

(** [x = v] at module level *)
Definition assign (x : string) (v : value) : script unit :=
  fun ns => Ret (tt, <[x := v]> ns).

(** reading the module-level name [x] *)
Definition global (x : string) : script value :=
  fun ns => match ns !! x with
            | Some v => Ret (v, ns)
            | None => Throw (NameError x)
            end.

Definition throw {A} (e : exn) : script A := fun _ => Throw e.

Definition ext (c : call) : script value :=
  fun ns => Call c (fun v => Ret (v, ns)).

(** ** Python operations of the scripts *)

(** a call [f(args..., kw...)] of an imported callable [f] *)
Definition callfn (f : string) (args : list value) (kw : kwargs) : script value :=
  ext (CallFn f args kw).

(** a method call [obj.m(args..., kw...)] *)
Definition method (obj : value) (m : string) (args : list value) (kw : kwargs)
  : script value :=
  ext (CallMethod obj m args kw).

(** [obj[key]] *)
Definition getitem (obj key : value) : script value := ext (GetItem obj key).

(** [obj.name] and [obj.name = v] *)
Definition getattr (obj : value) (name : string) : script value :=
  ext (GetAttr obj name).
Definition setattr (obj : value) (name : string) (v : value) : script unit :=
  _ ← ext (SetAttr obj name v); mret tt.

(** [a + b]: two strings are concatenated; any other pair of operands is
    left to the operands' own [__add__]. *)
Definition py_add (a b : value) : script value :=
  match a, b with
  | VStr x, VStr y => script_ret (VStr (x +:+ y))
  | _, _ => ext (BinAdd a b)
  end.

(** [s[lo:hi]] for [lo <= hi]: a string is sliced here (Python clamps the
    bounds to the length, as [String.substring] does). *)
Definition py_slice (s : value) (lo hi : nat) : script value :=
  match s with
  | VStr x => script_ret (VStr (String.substring lo (hi - lo) x))
  | _ => ext (GetSlice s lo hi)
  end.

(** The items a [for] clause draws from [v]: those of a list, or those the
    iterable hands out, taken as one outside call. *)
Definition py_iter (v : value) : script (list value) :=
  match v with
  | VList l => script_ret l
  | _ => r ← ext (Iter v);
         match r with
         | VList l => script_ret l
         | _ => throw (TypeError "iteration")
         end
  end.

(** [[f x for x in l]] *)
Fixpoint comprehension (f : value -> script value) (l : list value)
  : script (list value) :=
  match l with
  | [] => script_ret []
  | x :: l' => y ← f x; ys ← comprehension f l'; script_ret (y :: ys)
  end.

(** ** Running a program against the outside world *)

Section Run.
Context {W : Type}.
(** The libraries and the runtime: each call is answered in a world and
    leaves a world. *)
Variable lib : call -> W -> outcome * W.

(** One entry of the call log: the world the call was made in, the call,
    and what it came back with. *)
Record event : Type := Event { ev_pre : W; ev_call : call; ev_out : outcome }.

Fixpoint run {A} (p : prog A) (w : W) : list event * result A * W :=
  match p with
  | Ret a => ([], Ok a, w)
  | Throw e => ([], Err e, w)
  | Call c k =>
      match lib c w with
      | (Returned v, w') =>
          let '(tr, r, w'') := run (k v) w' in
          (Event w c (Returned v) :: tr, r, w'')
      | (Raised e, w') => ([Event w c (Raised e)], Err (External e), w')
      end
  end.

Definition trace_of {A} (x : list event * result A * W) : list event := x.1.1.
Definition result_of {A} (x : list event * result A * W) : result A := x.1.2.

(** The log without the worlds. *)
Definition log (tr : list event) : list (call * outcome) :=
  map (fun e => (ev_call e, ev_out e)) tr.
End Run.
Arguments Event {W} ev_pre ev_call ev_out.

(** ** The index script: [prepare_indices] *)

(** The expression [pd.DataFrame(df[cross + suffix])] of lines 54-61. *)
Definition column_frame (df : value) (suffix : string) : script value :=
  cross ← global "cross";
  name ← py_add cross (VStr suffix);
  col ← getitem df name;
  callfn "pd.DataFrame" [col] [].

Definition prepare_indices (df_tot df_tc df_spot_tot : value) : script value :=
  let df_list := [] in
  df_list ←
    (if is_None df_tot then script_ret df_list else
       f1 ← column_frame df_tot "-option-tot.close";
       f2 ← column_frame df_tot "-option-delta-tot.close";
       f3 ← column_frame df_tot "-delta-pnl-index.close";
       script_ret (df_list ++ [f1; f2; f3]));
  df_list ←
    (if is_None df_tc then script_ret df_list else
       f1 ← column_frame df_tc "-option-tot-with-tc.close";
       f2 ← column_frame df_tc "-option-delta-tot-with-tc.close";
       f3 ← column_frame df_tc "-delta-pnl-index-with-tc.close";
       script_ret (df_list ++ [f1; f2; f3]));
  df_list ←
    (if is_None df_spot_tot then script_ret df_list else
       script_ret (df_list ++ [df_spot_tot]));
  calculations ← global "calculations";
  joined ← method calculations "pandas_outer_join" [VList df_list] [];
  df ← method joined "fillna" [] [("method", VStr "ffill")];
  calculations ← global "calculations";
  method calculations "create_mult_index_from_prices" [df] [].

(** ** Statement forms of the top-level code *)

(** [x = e] at module level: evaluate, then bind. *)
Definition assign_from (x : string) (e : script value) : script unit :=
  v ← e; assign x v.
Notation "x ::= e" := (assign_from x e) (at level 90, no associativity).

(** An expression statement: the value is dropped. *)
Definition expr (e : script value) : script unit := _ ← e; mret tt.

(** [if c: body] with no [else]. *)
Definition when (c : bool) (body : script unit) : script unit :=
  if c then body else mret tt.

(** The namespace a script starts in when it is run as a program. *)
Definition initial_namespace : namespace := {[ "__name__" := VStr "__main__" ]}.

(** ** The index script, [fx_options_indices_examples.py] *)

(** Lines 39-42. *)
Definition indices_preamble : script unit :=
  "logger" ::= (lm ← callfn "LoggerManager" [] [];
                name ← global "__name__";
                method lm "getLogger" [name] []);;
  "chart" ::= callfn "Chart" [] [("engine", VStr "plotly")];;
  "market" ::= (g ← callfn "MarketDataGenerator" [] [];
                callfn "Market" [] [("market_data_generator", g)]).

(** The request of lines 83-86 and 163-166; [cut] is the only argument in
    which the two differ. *)
Definition index_md_request (cut : string) : script value :=
  start_date ← global "start_date";
  finish_date ← global "finish_date";
  tickers ← global "cross";
  cross ← global "cross";
  base ← py_slice cross 0 3;
  cross ← global "cross";
  terms ← py_slice cross 3 6;
  callfn "MarketDataRequest" []
    [("start_date", start_date); ("finish_date", finish_date);
     ("data_source", VStr "bloomberg"); ("cut", VStr cut);
     ("category", VStr "fx-vol-market");
     ("tickers", tickers);
     ("fx_vol_tenor", VList [VStr "1W"; VStr "1M"; VStr "3M"]);
     ("cache_algo", VStr "cache_algo_return");
     ("base_depos_currencies", VList [base; terms])].

(** [market.fetch_market(md_request)] *)
Definition fetch_market : script value :=
  market ← global "market";
  md_request ← global "md_request";
  method market "fetch_market" [md_request] [].

(** Lines 95 and 175:
    [market.fetch_market(md_request=md_request).fillna(method='ffill')] *)
Definition fetch_market_ffill : script value :=
  market ← global "market";
  md_request ← global "md_request";
  df ← method market "fetch_market" [] [("md_request", md_request)];
  method df "fillna" [] [("method", VStr "ffill")].

(** [fx_options_curve.apply_tc_to_total_return_index(cross, df_tot,
    option_tc_bp=.., spot_tc_bp=..)] *)
Definition apply_tc (tot : string) (option_tc_bp spot_tc_bp : Z) : script value :=
  curve ← global "fx_options_curve";
  cross ← global "cross";
  df_tot ← global tot;
  method curve "apply_tc_to_total_return_index" [cross; df_tot]
    [("option_tc_bp", VInt option_tc_bp); ("spot_tc_bp", VInt spot_tc_bp)].

(** Lines 126-133 and 200-207: the request is pointed at the Bloomberg
    total-return indices, fetched again, and the columns are renamed. *)
Definition fetch_bbg_tot : script unit :=
  (md_request ← global "md_request"; setattr md_request "abstract_curve" VNone);;
  (md_request ← global "md_request"; setattr md_request "category" (VStr "fx-tot"));;
  (md_request ← global "md_request"; setattr md_request "cut" (VStr "NYC"));;
  "df_bbg_tot" ::= fetch_market;;
  (df_bbg_tot ← global "df_bbg_tot";
   columns ← getattr df_bbg_tot "columns";
   items ← py_iter columns;
   renamed ← comprehension (fun x => py_add x (VStr "-bbg")) items;
   df_bbg_tot ← global "df_bbg_tot";
   setattr df_bbg_tot "columns" (VList renamed)).

(** [calculations.create_mult_index_from_prices(prepare_indices(df_tot=..,
    df_tc=.., df_spot_tot=..))]; an argument that is not passed keeps its
    default [None]. *)
Definition mult_index_of_indices (df_tot df_tc df_spot_tot : option string)
  : script value :=
  calculations ← global "calculations";
  let arg (x : option string) : script value :=
    match x with Some n => global n | None => mret VNone end in
  a_tot ← arg df_tot;
  a_tc ← arg df_tc;
  a_spot ← arg df_spot_tot;
  idx ← prepare_indices a_tot a_tc a_spot;
  method calculations "create_mult_index_from_prices" [idx] [].

(** [chart.plot(...)] of lines 137-144. *)
Definition chart_plot (e : script value) : script unit :=
  chart ← global "chart";
  df ← e;
  expr (method chart "plot" [df] []).

(** Lines 73-144. *)
Definition index_example_1 : script unit :=
  assign "start_date" (VStr "01 Jan 2007");;
  assign "finish_date" (VStr "31 Dec 2008");;
  assign "cross" (VStr "AUDUSD");;
  assign "fx_options_trading_tenor" (VStr "1M");;
  "md_request" ::= index_md_request "BGN";;
  "df" ::= fetch_market;;
  "df" ::= (df ← global "df"; method df "fillna" [] [("method", VStr "ffill")]);;
  "df" ::= (filter ← callfn "Filter" [] [];
            df ← global "df";
            method filter "filter_time_series_by_holidays" [df] [("cal", VStr "FX")]);;
  "df_market" ::= fetch_market_ffill;;
  "fx_options_curve" ::=
     (tenor ← global "fx_options_trading_tenor";
      callfn "FXOptionsCurve" []
        [("fx_options_trading_tenor", tenor);
         ("roll_days_before", VInt 0);
         ("roll_event", VStr "expiry-date");
         ("roll_months", VInt 1);
         ("fx_options_tenor_for_interpolation", VList [VStr "1W"; VStr "1M"]);
         ("strike", VStr "atm");
         ("contract_type", VStr "european-call");
         ("position_multiplier", VFloat 1.0);
         ("output_calculation_fields", VBool true)]);;
  "df_cuemacro_option_call_tot" ::=
     (curve ← global "fx_options_curve";
      cross ← global "cross";
      df ← global "df";
      method curve "construct_total_return_index" [cross; df] []);;
  "df_cuemacro_option_call_tc" ::= apply_tc "df_cuemacro_option_call_tot" 5 2;;
  "df_cuemacro_option_put_tot" ::=
     (curve ← global "fx_options_curve";
      cross ← global "cross";
      df ← global "df";
      method curve "construct_total_return_index" [cross; df]
        [("contract_type", VStr "european-put");
         ("position_multiplier", VFloat (-1.0))]);;
  "df_cuemacro_option_put_tc" ::= apply_tc "df_cuemacro_option_put_tot" 5 2;;
  fetch_bbg_tot;;
  "calculations" ::= callfn "Calculations" [] [];;
  chart_plot (mult_index_of_indices (Some "df_cuemacro_option_call_tot")
                (Some "df_cuemacro_option_call_tc") (Some "df_bbg_tot"));;
  chart_plot (mult_index_of_indices (Some "df_cuemacro_option_put_tot")
                (Some "df_cuemacro_option_put_tc") (Some "df_bbg_tot"));;
  chart_plot (mult_index_of_indices None
                (Some "df_cuemacro_option_put_tc") (Some "df_bbg_tot")).

(** Lines 150-216. *)
Definition index_example_2 : script unit :=
  assign "start_date" (VStr "04 Jan 2006");;
  assign "finish_date" (VStr "31 Dec 2020");;
  assign "start_date" (VStr "09 Mar 2007");;
  assign "finish_date" (VStr "31 Dec 2014");;
  assign "cross" (VStr "EURUSD");;
  assign "fx_options_trading_tenor" (VStr "1W");;
  "md_request" ::= index_md_request "10AM";;
  "df" ::= fetch_market;;
  "df" ::= (df ← global "df"; method df "fillna" [] [("method", VStr "ffill")]);;
  "df_market" ::= fetch_market_ffill;;
  "fx_options_curve" ::=
     (tenor ← global "fx_options_trading_tenor";
      callfn "FXOptionsCurve" []
        [("fx_options_trading_tenor", tenor);
         ("roll_days_before", VInt 0);
         ("roll_event", VStr "expiry-date");
         ("roll_months", VInt 1);
         ("fx_options_tenor_for_interpolation", VList [VStr "1W"]);
         ("strike", VStr "atm");
         ("contract_type", VStr "european-straddle");
         ("position_multiplier", VFloat (-1.0));
         ("output_calculation_fields", VBool true);
         ("cum_index", VStr "add")]);;
  "df_cuemacro_option_straddle_tot" ::=
     (curve ← global "fx_options_curve";
      cross ← global "cross";
      df ← global "df";
      method curve "construct_total_return_index" [cross; df]
        [("depo_tenor", VStr "1W")]);;
  "df_cuemacro_option_straddle_tc" ::=
     apply_tc "df_cuemacro_option_straddle_tot" 10 1;;
  fetch_bbg_tot;;
  "calculations" ::= callfn "Calculations" [] [];;
  "df_index" ::= mult_index_of_indices None
                   (Some "df_cuemacro_option_straddle_tc") (Some "df_bbg_tot");;
  (quick ← callfn "QuickChart" [] [("engine", VStr "plotly")];
   df_index ← global "df_index";
   expr (method quick "plot_chart_with_ret_stats" []
           [("df", df_index); ("plotly_plot_mode", VStr "offline_html");
            ("scale_factor", VFloat (-1.5))])).

(** The whole file, for a given setting of [run_example] on line 48 (the
    file as committed has 2). *)
Definition indices_script (run_example : Z) : script unit :=
  indices_preamble;;
  assign "run_example" (VInt run_example);;
  when ((run_example =? 1)%Z || (run_example =? 0)%Z) index_example_1;;
  when ((run_example =? 2)%Z || (run_example =? 0)%Z) index_example_2.

(** ** The pricing script, [fx_options_pricing_examples.py] *)

(** Lines 35-38. *)
Definition pricing_preamble : script unit := indices_preamble.

(** The request of examples 1, 3, 4 and 5: one day, [cut] varies. *)
Definition pricing_md_request (cut : string) : script value :=
  start_date ← global "horizon_date";
  finish_date ← global "horizon_date";
  tickers ← global "cross";
  cross ← global "cross";
  base ← py_slice cross 0 3;
  cross ← global "cross";
  terms ← py_slice cross 3 6;
  callfn "MarketDataRequest" []
    [("start_date", start_date); ("finish_date", finish_date);
     ("data_source", VStr "bloomberg"); ("cut", VStr cut);
     ("category", VStr "fx-vol-market");
     ("tickers", tickers);
     ("base_depos_currencies", VList [base; terms]);
     ("cache_algo", VStr "cache_algo_return")].

(** [FXVolSurface(market_df=df, asset=cross)], with [tenors=..] when the
    example gives them. *)
Definition vol_surface (tenors : option (list string)) : script value :=
  df ← global "df";
  cross ← global "cross";
  match tenors with
  | None => callfn "FXVolSurface" [] [("market_df", df); ("asset", cross)]
  | Some ts =>
      callfn "FXVolSurface" []
        [("market_df", df); ("asset", cross); ("tenors", VList (map VStr ts))]
  end.

(** [FXOptionsPricer(fx_vol_surface=fx_vol_surface)] *)
Definition options_pricer : script value :=
  surface ← global "fx_vol_surface";
  callfn "FXOptionsPricer" [] [("fx_vol_surface", surface)].

(** [print("...")] *)
Definition print_str (s : string) : script unit :=
  expr (callfn "print" [VStr s] []).

(** [print(fx_op.price_instrument(cross, <date>, <strike>, kw..).to_string())]
    where the date and the keyword arguments are expressions of their own. *)
Definition print_price (date : script value) (strike : value)
    (kw : script kwargs) : script unit :=
  fx_op ← global "fx_op";
  cross ← global "cross";
  d ← date;
  kws ← kw;
  priced ← method fx_op "price_instrument" [cross; d; strike] kws;
  text ← method priced "to_string" [] [];
  expr (callfn "print" [text] []).

(** [pd.Timestamp(horizon_date)] *)
Definition horizon_timestamp : script value :=
  h ← global "horizon_date";
  callfn "pd.Timestamp" [h] [].

(** Lines 52-81. *)
Definition pricing_example_1 : script unit :=
  assign "horizon_date" (VStr "23 Jun 2016");;
  assign "cross" (VStr "GBPUSD");;
  "md_request" ::= pricing_md_request "NYC";;
  "df" ::= fetch_market;;
  "fx_vol_surface" ::= vol_surface None;;
  "fx_op" ::= options_pricer;;
  print_str "atm 1M european call";;
  print_price horizon_timestamp (VStr "atm")
    (mret [("contract_type", VStr "european-call"); ("tenor", VStr "1M")]);;
  print_str "25d 1W european put";;
  print_price horizon_timestamp (VStr "25d-otm")
    (mret [("contract_type", VStr "european-put"); ("tenor", VStr "1W")]);;
  print_str "1.50 12D european call";;
  print_price horizon_timestamp (VFloat 1.50)
    (t ← horizon_timestamp;
     delta ← callfn "pd.Timedelta" [] [("days", VInt 12)];
     expiry ← py_add t delta;
     mret [("expiry_date", expiry); ("contract_type", VStr "european-call")]).

(** Lines 87-118. *)
Definition pricing_example_2 : script unit :=
  assign "start_date" (VStr "02 Nov 2020");;
  assign "finish_date" (VStr "05 Nov 2020");;
  "horizon_date" ::=
     (start_date ← global "start_date";
      finish_date ← global "finish_date";
      callfn "pd.bdate_range" [start_date; finish_date] [("freq", VStr "B")]);;
  assign "cross" (VStr "USDJPY");;
  "md_request" ::=
     (start_date ← global "start_date";
      finish_date ← global "finish_date";
      tickers ← global "cross";
      cross ← global "cross";
      base ← py_slice cross 0 3;
      cross ← global "cross";
      terms ← py_slice cross 3 6;
      callfn "MarketDataRequest" []
        [("start_date", start_date); ("finish_date", finish_date);
         ("data_source", VStr "bloomberg"); ("cut", VStr "NYC");
         ("category", VStr "fx-vol-market");
         ("tickers", tickers);
         ("cache_algo", VStr "cache_algo_return");
         ("base_depos_currencies", VList [base; terms])]);;
  "df" ::= fetch_market;;
  assign "tenors"
    (VList (map VStr ["ON"; "1W"; "2W"; "1M"; "2M"; "3M"; "6M"; "9M"; "1Y";
                      "2Y"; "3Y"]));;
  "fx_vol_surface" ::=
     (df ← global "df";
      cross ← global "cross";
      tenors ← global "tenors";
      callfn "FXVolSurface" []
        [("market_df", df); ("asset", cross); ("tenors", tenors)]);;
  "fx_op" ::= options_pricer;;
  print_str "atm 1W european put";;
  print_price (global "horizon_date") (VStr "atm")
    (mret [("contract_type", VStr "european-put"); ("tenor", VStr "1W");
           ("depo_tenor", VStr "1W")]);;
  print_str "25d 3M european call";;
  print_price (global "horizon_date") (VStr "25d-otm")
    (mret [("contract_type", VStr "european-call"); ("tenor", VStr "3M");
           ("depo_tenor", VStr "3M")]);;
  print_str "10d 1M european put";;
  print_price (global "horizon_date") (VStr "10d-put")
    (mret [("contract_type", VStr "european-put"); ("tenor", VStr "1M");
           ("depo_tenor", VStr "1M")]).

(** Lines 123-144. *)
Definition pricing_example_3 : script unit :=
  assign "horizon_date" (VStr "18 Apr 2007");;
  assign "cross" (VStr "AUDUSD");;
  "md_request" ::= pricing_md_request "LDN";;
  "df" ::= fetch_market;;
  "fx_vol_surface" ::= vol_surface (Some ["ON"; "1W"; "1M"]);;
  "fx_op" ::= options_pricer;;
  print_str "atm 15D european call";;
  print_price horizon_timestamp (VFloat 0.8124)
    (t ← horizon_timestamp;
     delta ← callfn "pd.Timedelta" [] [("days", VInt 15)];
     expiry ← py_add t delta;
     mret [("expiry_date", expiry); ("contract_type", VStr "european-call")]).

(** Lines 147-170. *)
Definition pricing_example_4 : script unit :=
  assign "horizon_date" (VStr "17 Aug 2007");;
  assign "cross" (VStr "AUDUSD");;
  "md_request" ::= pricing_md_request "BGN";;
  "df" ::= fetch_market;;
  "fx_vol_surface" ::= vol_surface (Some ["1W"; "1M"; "3M"]);;
  "fx_op" ::= options_pricer;;
  print_str "atm 15D european call";;
  print_price horizon_timestamp (VFloat 0.8535)
    (expiry ← callfn "pd.Timestamp" [VStr "05 Sep 2007"] [];
     mret [("expiry_date", expiry); ("contract_type", VStr "european-call")]).

(** Lines 173-196. *)
Definition pricing_example_5 : script unit :=
  assign "horizon_date" (VStr "04 Jan 2006");;
  assign "cross" (VStr "EURUSD");;
  "md_request" ::= pricing_md_request "BGN";;
  "df" ::= fetch_market;;
  "fx_vol_surface" ::= vol_surface (Some ["1W"; "1M"; "3M"]);;
  "fx_op" ::= options_pricer;;
  print_str "atm 1W european call";;
  print_price horizon_timestamp (VStr "atm")
    (mret [("tenor", VStr "1W"); ("depo_tenor", VStr "1W");
           ("contract_type", VStr "european-call")]).

(** The whole file, for a given setting of [run_example] on line 47 (the
    file as committed has 5). *)
Definition pricing_script (run_example : Z) : script unit :=
  pricing_preamble;;
  assign "run_example" (VInt run_example);;
  when ((run_example =? 1)%Z || (run_example =? 0)%Z) pricing_example_1;;
  when ((run_example =? 2)%Z || (run_example =? 0)%Z) pricing_example_2;;
  when ((run_example =? 3)%Z || (run_example =? 0)%Z) pricing_example_3;;
  when ((run_example =? 4)%Z || (run_example =? 0)%Z) pricing_example_4;;
  when ((run_example =? 5)%Z || (run_example =? 0)%Z) pricing_example_5.

(** ** The two files together *)

Inductive example_file : Type := PricingExamples | IndicesExamples.

Definition script_of (f : example_file) (run_example : Z) : script unit :=
  match f with
  | PricingExamples => pricing_script run_example
  | IndicesExamples => indices_script run_example
  end.

(** * Libraries to run the scripts against *)

(** ** A recording library *)

(** A stand-in for the outside world in which runs can be computed.  Every
    call answers with a fresh object, so that each value in a log names
    the call that made it.  An object keeps the keyword arguments it was
    made with as attributes, attribute assignment overwrites them (and
    raises on what is not an object that has been made), and iteration
    hands out the configured items.  A call for which [fails] gives an
    exception raises it. *)
Module Mock.
Record world : Type := World {
  next : nat;
  attrs : list (nat * string * value)
}.

Definition empty : world := World 0 [].

Definition fresh (w : world) : outcome * world :=
  (Returned (VObj (next w)), World (S (next w)) (attrs w)).

(** The latest value written for a key. *)
Fixpoint find (k : nat * string) (m : list (nat * string * value)) : option value :=
  match m with
  | [] => None
  | (k', v) :: m' => if decide (k = k') then Some v else find k m'
  end.

Fixpoint store (h : nat) (kw : kwargs) (m : list (nat * string * value))
  : list (nat * string * value) :=
  match kw with
  | [] => m
  | (k, v) :: kw' => store h kw' ((h, k, v) :: m)
  end.

(** The attribute [name] of [v] as the world has it; only objects that
    have been made have attributes. *)
Definition attr (w : world) (v : value) (name : string) : option value :=
  match v with
  | VObj h => if decide (h < next w) then find (h, name) (attrs w) else None
  | _ => None
  end.

Definition answer (items : list value) (c : call) (w : world) : outcome * world :=
  match c with
  | CallFn _ _ kw =>
      (Returned (VObj (next w)), World (S (next w)) (store (next w) kw (attrs w)))
  | SetAttr (VObj h) name v =>
      if decide (h < next w)
      then (Returned VNone, World (next w) ((h, name, v) :: attrs w))
      else (Raised (VStr "AttributeError"), w)
  | SetAttr _ _ _ => (Raised (VStr "AttributeError"), w)
  | GetAttr obj name =>
      match attr w obj name with
      | Some v => (Returned v, w)
      | None => fresh w
      end
  | Iter _ => (Returned (VList items), w)
  | _ => fresh w
  end.

Definition lib (items : list value) (fails : call -> option value)
    (c : call) (w : world) : outcome * world :=
  match fails c with
  | Some e => (Raised e, w)
  | None => answer items c w
  end.

Definition never : call -> option value := fun _ => None.

End Mock.

(** The column labels the recording library hands out in the recorded runs. *)
Definition recorded_labels : list value := [VStr "USD-tot.close"].

(** The log of a script run from the initial namespace against the
    recording library, no call failing. *)
Definition recorded {A} (s : script A) : list (call * outcome) :=
  log (trace_of (run (Mock.lib recorded_labels Mock.never) (s initial_namespace)
                   Mock.empty)).

(** ** A library that keeps tickers as a list *)

(** The recording library, except that a request keeps its tickers as a
    list: a single ticker given as a string is kept as a list of one. *)
Module Listing.
Definition as_list (v : value) : value :=
  match v with VStr s => VList [VStr s] | _ => v end.

Definition keep (kw : kwargs) : kwargs :=
  map (fun x => if String.eqb x.1 "tickers" then (x.1, as_list x.2) else x) kw.

Definition lib (c : call) (w : Mock.world) : outcome * Mock.world :=
  match c with
  | CallFn f args kw =>
      if String.eqb f "MarketDataRequest"
      then Mock.answer recorded_labels (CallFn f args (keep kw)) w
      else Mock.answer recorded_labels c w
  | _ => Mock.answer recorded_labels c w
  end.
End Listing.

(** ** Frames as lists of column labels *)

(** A small picture of pandas in which a frame is the list of its column
    labels: selecting a column that is there gives its label, selecting
    one that is not raises, a frame made of a column has that one label,
    the outer join has the labels of all its frames, and forward fill and
    index building keep the labels. *)
Module Labels.
Definition is_label (name : string) (v : value) : bool :=
  match v with VStr s => String.eqb s name | _ => false end.

Definition labels_of (frame : value) : list value :=
  match frame with VList l => l | _ => [] end.

Definition answer (c : call) : outcome :=
  match c with
  | GetItem (VList cols) (VStr name) =>
      if existsb (is_label name) cols then Returned (VStr name)
      else Raised (VStr ("KeyError: " +:+ name))
  | CallFn _ [VStr name] [] => Returned (VList [VStr name])
  | CallMethod _ m [VList frames] [] =>
      if String.eqb m "pandas_outer_join"
      then Returned (VList (flat_map labels_of frames))
      else Returned (VList frames)
  | CallMethod df m [] _ =>
      if String.eqb m "fillna" then Returned df else Returned VNone
  | _ => Returned VNone
  end.

Definition lib (c : call) (w : unit) : outcome * unit := (answer c, w).
End Labels.

(** * Vocabulary of the properties *)

(** ** Logs *)

(** The entry point a call goes to, as the script names it. *)
Definition entry (c : call) : string :=
  match c with
  | CallFn f _ _ => f
  | CallMethod _ m _ _ => "." +:+ m
  | GetItem _ _ => "[]"
  | GetSlice _ _ _ => "[:]"
  | GetAttr _ name => "." +:+ name
  | SetAttr _ name _ => "." +:+ name +:+ "="
  | BinAdd _ _ => "+"
  | Iter _ => "iter"
  end.

Definition entry_points {W} (tr : list (@event W)) : list string :=
  map (fun e => entry (ev_call e)) tr.

Definition is_method (m : string) (c : call) : bool :=
  match c with CallMethod _ m' _ _ => String.eqb m m' | _ => false end.

Definition is_callfn (f : string) (c : call) : bool :=
  match c with CallFn f' _ _ => String.eqb f f' | _ => false end.

Definition is_setattr (c : call) : bool :=
  match c with SetAttr _ _ _ => true | _ => false end.

Fixpoint value_eqb (a b : value) : bool :=
  match a, b with
  | VNone, VNone => true
  | VBool x, VBool y => Bool.eqb x y
  | VInt x, VInt y => Z.eqb x y
  | VFloat x, VFloat y => Z.eqb (Qnum x) (Qnum y) && Pos.eqb (Qden x) (Qden y)
  | VStr x, VStr y => String.eqb x y
  | VList x, VList y =>
      (fix go (x y : list value) : bool :=
         match x, y with
         | [], [] => true
         | a :: x', b :: y' => value_eqb a b && go x' y'
         | _, _ => false
         end) x y
  | VObj x, VObj y => Nat.eqb x y
  | _, _ => false
  end.

(** [v] is [x] or an item of the list [x], at any depth. *)
Fixpoint occurs (v x : value) : bool :=
  value_eqb v x ||
  match x with
  | VList l => existsb (occurs v) l
  | _ => false
  end.

(** The values a call is given: receiver, arguments, keyword arguments. *)
Definition operands (c : call) : list value :=
  match c with
  | CallFn _ args kw => args ++ kw.*2
  | CallMethod obj _ args kw => obj :: args ++ kw.*2
  | GetItem obj key => [obj; key]
  | GetSlice obj _ _ => [obj]
  | GetAttr obj _ => [obj]
  | SetAttr obj _ v => [obj; v]
  | BinAdd a b => [a; b]
  | Iter obj => [obj]
  end.

Definition mentions (v : value) (c : call) : bool :=
  existsb (occurs v) (operands c).

(** The calls of a log that are given [v]. *)
Definition consumers (v : value) (l : list (call * outcome)) : list call :=
  filter (fun c => mentions v c = true) l.*1.

(** The values returned by the calls of a log that satisfy [p]. *)
Definition results_of (p : call -> bool) (l : list (call * outcome)) : list value :=
  omap (fun e => match e with
                 | (c, Returned v) => if p c then Some v else None
                 | _ => None
                 end) l.

Definition setattr_calls (l : list call) : list call :=
  filter (fun c => is_setattr c = true) l.

(** ** The log of [prepare_indices] *)

Definition tot_columns : list string :=
  ["-option-tot.close"; "-option-delta-tot.close"; "-delta-pnl-index.close"].
Definition tc_columns : list string :=
  ["-option-tot-with-tc.close"; "-option-delta-tot-with-tc.close";
   "-delta-pnl-index-with-tc.close"].

(** Selecting one column: [df[cross + suffix]] gives the column
    [picked.1], and [pd.DataFrame] of it the frame [picked.2]. *)
Definition select_entry (df : value) (cross suffix : string) (picked : value * value)
  : list (call * outcome) :=
  [(GetItem df (VStr (cross +:+ suffix)), Returned picked.1);
   (CallFn "pd.DataFrame" [picked.1] [], Returned picked.2)].

Definition selection_log (df : value) (cross : string) (suffixes : list string)
    (picked : list (value * value)) : list (call * outcome) :=
  concat (zip_with (select_entry df cross) suffixes picked).

(** The three closing calls: outer join of [frames], forward fill, index. *)
Definition join_log (calc : value) (frames : list value) (joined filled r : value)
  : list (call * outcome) :=
  [(CallMethod calc "pandas_outer_join" [VList frames] [], Returned joined);
   (CallMethod joined "fillna" [] [("method", VStr "ffill")], Returned filled);
   (CallMethod calc "create_mult_index_from_prices" [filled] [], Returned r)].

(** The entry points of three column selections. *)
Definition selection_shape : list string :=
  ["[]"; "pd.DataFrame"; "[]"; "pd.DataFrame"; "[]"; "pd.DataFrame"].

(** The entry points [prepare_indices] goes through, by which of its
    first two arguments are [None]. *)
Definition call_shape (df_tot df_tc : value) : list string :=
  (if is_None df_tot then [] else selection_shape) ++
  (if is_None df_tc then [] else selection_shape) ++
  [".pandas_outer_join"; ".fillna"; ".create_mult_index_from_prices"].

(** A function of three arguments that goes through the same entry
    points whatever it is given: it has no branch of its own. *)
Definition straight_line (f : value -> value -> value -> script value) : Prop :=
  forall (W : Type) (lib : call -> W -> outcome * W) (ns : namespace) (w : W)
         a b c a' b' c' tr tr' r r' w1 w2,
    run lib (f a b c ns) w = (tr, Ok r, w1) ->
    run lib (f a' b' c' ns) w = (tr', Ok r', w2) ->
    entry_points tr = entry_points tr'.

(** ** What a run depends on *)

(** Two programs that make the same calls and end alike, with results
    related by [R]. *)
Inductive sim {A B} (R : A -> B -> Prop) : prog A -> prog B -> Prop :=
| sim_ret a b : R a b -> sim R (Ret a) (Ret b)
| sim_throw e : sim R (Throw e) (Throw e)
| sim_call c k1 k2 : (forall v, sim R (k1 v) (k2 v)) -> sim R (Call c k1) (Call c k2).

(** The namespaces agree on the names in [X]. *)
Definition agree (X : list string) (ns1 ns2 : namespace) : Prop :=
  forall x, x ∈ X -> ns1 !! x = ns2 !! x.

(** Same value, namespaces still agreeing. *)
Definition same_value (X : list string) {A} (r1 r2 : A * namespace) : Prop :=
  r1.1 = r2.1 /\ agree X r1.2 r2.2.

(** [s] looks at the namespace only through the names in [X]. *)
Definition reads (X : list string) {A} (s : script A) : Prop :=
  forall ns1 ns2, agree X ns1 ns2 -> sim (same_value X) (s ns1) (s ns2).

(** What the caller gets back: the value, or the exception. *)
Definition value_of {A} (r : result (A * namespace)) : result A :=
  match r with Ok x => Ok x.1 | Err e => Err e end.

(** A run seen from the caller: the log, what came back (the namespace
    is the script's own business), and the world left behind. *)
Definition returned {W A} (x : list (@event W) * result (A * namespace) * W)
  : list (@event W) * result A * W :=
  (x.1.1, value_of x.1.2, x.2).

(** What [prepare_indices] gives back hangs on its three arguments alone,
    whatever the namespace it is called in. *)
Definition determined_by_arguments : Prop :=
  forall (W : Type) (lib : call -> W -> outcome * W) (w : W)
         (ns1 ns2 : namespace) df_tot df_tc df_spot_tot,
    value_of (result_of (run lib (prepare_indices df_tot df_tc df_spot_tot ns1) w)) =
    value_of (result_of (run lib (prepare_indices df_tot df_tc df_spot_tot ns2) w)).

(** ** The request between the fetches *)

Definition is_fetch {W} (e : @event W) : bool := is_method "fetch_market" (ev_call e).

(** The entry number [n] (from 0) among those that satisfy [p], with the
    entries before it. *)
Fixpoint split_at {A} (p : A -> bool) (n : nat) (l : list A) : option (list A * A) :=
  match l with
  | [] => None
  | x :: l' =>
      if p x then
        match n with
        | 0 => Some ([], x)
        | S n' => prod_map (cons x) id <$> split_at p n' l'
        end
      else prod_map (cons x) id <$> split_at p n l'
  end.

(** The three assignments of lines 126-130 and 200-204. *)
Definition retarget (req : value) : list call :=
  [SetAttr req "abstract_curve" VNone;
   SetAttr req "category" (VStr "fx-tot");
   SetAttr req "cut" (VStr "NYC")].

(** The names the request is made with in the index examples. *)
Definition request_names : list string :=
  ["start_date"; "finish_date"; "data_source"; "cut"; "category"; "tickers";
   "fx_vol_tenor"; "cache_algo"; "base_depos_currencies"].

(** The state of the request [req] at the entry [e], a fetch made after
    the entries [pre]: made first with the keyword arguments [kw], since
    then only retargeted, and every attribute it was made with, [category]
    and [cut] apart, is as it was made. *)
Definition retargeted_only {W} (attr : W -> value -> string -> option value)
    (pre : list (@event W)) (e : @event W) : Prop :=
  exists kw market req,
    head (log pre) = Some (CallFn "MarketDataRequest" [] kw, Returned req) /\
    kw.*1 = request_names /\
    ev_call e = CallMethod market "fetch_market" [req] [] /\
    setattr_calls (map ev_call pre) = retarget req /\
    (forall name v, (name, v) ∈ kw -> name <> "category" -> name <> "cut" ->
                    attr (ev_pre e) req name = Some v) /\
    attr (ev_pre e) req "abstract_curve" = Some VNone /\
    attr (ev_pre e) req "category" = Some (VStr "fx-tot") /\
    attr (ev_pre e) req "cut" = Some (VStr "NYC").

Definition index_example (k : bool) : script unit :=
  if k then index_example_1 else index_example_2.

(** The claim on the fields of the request, for a library [lib] whose
    objects have the attributes [attr]: at the third fetch of an index
    example the request is [retargeted_only]. *)
Definition fields_as_given {W} (lib : call -> W -> outcome * W)
    (attr : W -> value -> string -> option value) : Prop :=
  forall (k : bool) (ns : namespace) w tr res w' pre e,
    run lib (index_example k ns) w = (tr, res, w') ->
    split_at is_fetch 2 tr = Some (pre, e) ->
    retargeted_only attr pre e.

(** What the script does to the request up to the fetch [e], made after
    the entries [pre]: the request is made first, with the keyword
    arguments [kw]; the two fetches before [e] and [e] itself are given
    that request; and the attribute assignments before [e] are the three
    of [retarget], on that request. *)
Definition retargeted {W} (pre : list (@event W)) (e : @event W) : Prop :=
  exists kw market req,
    head (log pre) = Some (CallFn "MarketDataRequest" [] kw, Returned req) /\
    kw.*1 = request_names /\
    filter (fun c => is_method "fetch_market" c = true) (map ev_call pre) =
      [CallMethod market "fetch_market" [req] [];
       CallMethod market "fetch_market" [] [("md_request", req)]] /\
    ev_call e = CallMethod market "fetch_market" [req] [] /\
    setattr_calls (map ev_call pre) = retarget req.

(** ** Where the tables go *)

Definition is_output (c : call) : bool :=
  is_callfn "print" c || is_method "plot" c || is_method "plot_chart_with_ret_stats" c.

(** The calls that fetch or compute a table. *)
Definition makes_table (c : call) : bool :=
  is_method "fetch_market" c || is_method "price_instrument" c ||
  is_method "construct_total_return_index" c ||
  is_method "apply_tc_to_total_return_index" c ||
  is_method "create_mult_index_from_prices" c.

(** Every table goes to printing and plotting calls only, and nothing is
    assigned to an attribute of an object. *)
Definition tables_only_shown (l : list (call * outcome)) : Prop :=
  (forall c t c' o, (c, Returned t) ∈ l -> makes_table c = true ->
                    (c', o) ∈ l -> mentions t c' = true -> is_output c' = true) /\
  setattr_calls l.*1 = [].

(** A priced table is rendered with [to_string] and goes nowhere else. *)
Definition priced_tables_rendered (l : list (call * outcome)) : Prop :=
  Forall (fun t => consumers t l = [CallMethod t "to_string" [] []])
    (results_of (is_method "price_instrument") l).

(** A rendering is printed and goes nowhere else. *)
Definition renderings_printed (l : list (call * outcome)) : Prop :=
  Forall (fun s => consumers s l = [CallFn "print" [s] []])
    (results_of (is_method "to_string") l).

(** An index table goes to one call: the next index building, or a plot. *)
Definition index_tables_plotted (l : list (call * outcome)) : Prop :=
  Forall (fun t => exists c, consumers t l = [c] /\
            (is_method "create_mult_index_from_prices" c || is_method "plot" c ||
             is_method "plot_chart_with_ret_stats" c) = true)
    (results_of (is_method "create_mult_index_from_prices") l).

(** ** The order of the calls *)

Definition receiver (c : call) : option value :=
  match c with CallMethod obj _ _ _ => Some obj | _ => None end.

(** The pricing and index-construction methods. *)
Definition is_engine_method (c : call) : bool :=
  is_method "price_instrument" c ||
  is_method "construct_total_return_index" c ||
  is_method "apply_tc_to_total_return_index" c.

(** Every pricing or index-construction call of the log is a call on
    [obj] and comes after entry [i]. *)
Definition methods_after (i : nat) (obj : value) (l : list (call * outcome)) : Prop :=
  forall j c o, l !! j = Some (c, o) -> is_engine_method c = true ->
                receiver c = Some obj /\ i < j.

(** Request, fetch with it, surface from the fetched data, pricer from
    the surface or curve, and only then the methods of that object. *)
Definition stated_order (l : list (call * outcome)) : Prop :=
  exists i1 i2 i3 i4 kw1 req market df kw3 surface cls kw4 obj,
    l !! i1 = Some (CallFn "MarketDataRequest" [] kw1, Returned req) /\
    l !! i2 = Some (CallMethod market "fetch_market" [req] [], Returned df) /\
    l !! i3 = Some (CallFn "FXVolSurface" [] kw3, Returned surface) /\
    ("market_df", df) ∈ kw3 /\
    l !! i4 = Some (CallFn cls [] kw4, Returned obj) /\
    ((cls = "FXOptionsPricer" /\ ("fx_vol_surface", surface) ∈ kw4) \/
     cls = "FXOptionsCurve") /\
    i1 < i2 /\ i2 < i3 /\ i3 < i4 /\
    methods_after i4 obj l.

(** ** Sample inputs *)

(** A namespace as the index examples leave it when [prepare_indices] is
    called, and three frames made before the call. *)
Definition sample_namespace : namespace :=
  <["cross" := VStr "AUDUSD"]> (<["calculations" := VObj 0]> ∅).

Definition sample_world : Mock.world := Mock.World 4 [].

Definition sample_lib : call -> Mock.world -> outcome * Mock.world :=
  Mock.lib recorded_labels Mock.never.

(** A frame of labels that has the option columns of two crosses. *)
Definition two_cross_frame : value :=
  VList (map (fun s => VStr ("AUDUSD" +:+ s)) tot_columns ++
         map (fun s => VStr ("EURUSD" +:+ s)) tot_columns).



(** A namespace as the preamble leaves it, with the market made. *)
Definition market_namespace : namespace := <["market" := VObj 0]> initial_namespace.

(** The second index example run on its own against the recording
    library, and its third fetch with the calls before it. *)
Definition sample_index_run
  : list (@event Mock.world) * result (unit * namespace) * Mock.world :=
  run sample_lib (index_example false market_namespace) (Mock.World 1 []).

Definition sample_third_fetch : option (list (@event Mock.world) * @event Mock.world) :=
  split_at is_fetch 2 (trace_of sample_index_run).

(** The first index example, which plots with [chart], run likewise. *)
Definition charted_namespace : namespace := <["chart" := VObj 1]> market_namespace.

Definition sample_index_run_1
  : list (@event Mock.world) * result (unit * namespace) * Mock.world :=
  run sample_lib (index_example true charted_namespace) (Mock.World 2 []).

Definition sample_third_fetch_1
  : option (list (@event Mock.world) * @event Mock.world) :=
  split_at is_fetch 2 (trace_of sample_index_run_1).

(** The second index example against the library that keeps tickers as
    a list. *)
Definition listing_run
  : list (@event Mock.world) * result (unit * namespace) * Mock.world :=
  run Listing.lib (index_example false market_namespace) (Mock.World 1 []).

Definition listing_third_fetch
  : option (list (@event Mock.world) * @event Mock.world) :=
  split_at is_fetch 2 (trace_of listing_run).


(** * Vocabulary for runs against every library *)

(** ** Checking a program call by call *)

(** The calls made so far, with what each came back with. *)
Abbreviation history := (list (call * outcome)).

(** [wph ok fine h p Q]: started after the calls [h], whatever the
    library answers, every call [p] makes satisfies [ok] on the calls
    before it, an exception [p] raises itself satisfies [fine], and
    when [p] returns [a] after the calls [h'], [Q a h'] holds. *)
Fixpoint wph {A} (ok : history -> call -> Prop) (fine : exn -> Prop)
    (h : history) (p : prog A) (Q : A -> history -> Prop) : Prop :=
  match p with
  | Ret a => Q a h
  | Throw e => fine e
  | Call c k => ok h c /\ forall v, wph ok fine (h ++ [(c, Returned v)]) (k v) Q
  end.

(** Every call of the log [l], made after [h0], satisfies [ok] on the
    calls before it. *)
Definition always (ok : history -> call -> Prop) (h0 l : history) : Prop :=
  forall l1 c o l2, l = l1 ++ (c, o) :: l2 -> ok (h0 ++ l1) c.

Definition any_exn : exn -> Prop := fun _ => True.

(** Any call will do. *)
Definition any_call : history -> call -> Prop := fun _ _ => True.

(** The one exception the scripts can raise themselves when [__name__]
    is bound: in the index script, the [TypeError] of iterating over
    [df_bbg_tot.columns] when it does not hand out items. *)
Definition script_error (f : example_file) (e : exn) : Prop :=
  f = IndicesExamples /\ e = TypeError "iteration".

(** The operators the model leaves to the operands: [a + b] and
    iteration. *)
Definition is_operator (c : call) : bool :=
  match c with BinAdd _ _ | Iter _ => true | _ => false end.

(** ** The order of the calls, call by call *)

(** [v] was returned by one of the calls [h]. *)
Definition made (h : history) (v : value) : Prop := exists c, (c, Returned v) ∈ h.

(** Among the calls [h], in this order: a request is made, market data
    is fetched with it, an [FXVolSurface] is made from the fetched data,
    and the pricer [r] is made from that surface. *)
Definition pricer_chain (h : history) (r : value) : Prop :=
  exists kw1 req market df kw3 surface,
    [(CallFn "MarketDataRequest" [] kw1, Returned req);
     (CallMethod market "fetch_market" [req] [], Returned df);
     (CallFn "FXVolSurface" [] kw3, Returned surface);
     (CallFn "FXOptionsPricer" [] [("fx_vol_surface", surface)], Returned r)]
    `sublist_of` h /\
    ("market_df", df) ∈ kw3.

(** Among the calls [h], in this order: a request is made, market data
    is fetched with it, and the curve [r] is made. *)
Definition curve_chain (h : history) (r : value) : Prop :=
  exists kw1 req market df kw4,
    [(CallFn "MarketDataRequest" [] kw1, Returned req);
     (CallMethod market "fetch_market" [req] [], Returned df);
     (CallFn "FXOptionsCurve" [] kw4, Returned r)]
    `sublist_of` h.

Definition is_index_method (c : call) : bool :=
  is_method "construct_total_return_index" c ||
  is_method "apply_tc_to_total_return_index" c.

(** What the call [c] of the script [f] needs of the calls [h] before
    it: the receiver of a method call was returned by one of them; the
    receiver of [price_instrument] is a pricer at the end of a
    [pricer_chain]; the receiver of an index construction is a curve at
    the end of a [curve_chain]; and the index script makes no
    [FXVolSurface]. *)
Definition in_order (f : example_file) (h : history) (c : call) : Prop :=
  (forall r, receiver c = Some r -> made h r) /\
  (forall r, receiver c = Some r -> is_method "price_instrument" c = true ->
             pricer_chain h r) /\
  (forall r, receiver c = Some r -> is_index_method c = true -> curve_chain h r) /\
  (f = IndicesExamples -> is_callfn "FXVolSurface" c = false).

(** The attribute assignments: only the index script makes any, and only
    the three of the request, on a request it made itself, and the
    column labels, on a frame it fetched itself. *)
Definition own_writes (f : example_file) (h : history) (c : call) : Prop :=
  forall obj name v, c = SetAttr obj name v ->
    f = IndicesExamples /\
    (((exists kw, (CallFn "MarketDataRequest" [] kw, Returned obj) ∈ h) /\
      (name, v) ∈ [("abstract_curve", VNone); ("category", VStr "fx-tot");
                   ("cut", VStr "NYC")]) \/
     (exists market req labels,
        (CallMethod market "fetch_market" [req] [], Returned obj) ∈ h /\
        name = "columns" /\ v = VList labels)).

(** [x] is the rendering [to_string] gave of a table that
    [price_instrument] returned. *)
Definition rendering (h : history) (x : value) : Prop :=
  exists table pricer args kw,
    (CallMethod table "to_string" [] [], Returned x) ∈ h /\
    (CallMethod pricer "price_instrument" args kw, Returned table) ∈ h.

(** [idx] is an index [create_mult_index_from_prices] returned. *)
Definition index_table (h : history) (idx : value) : Prop :=
  exists calc frame,
    (CallMethod calc "create_mult_index_from_prices" [frame] [], Returned idx) ∈ h.

(** The titles the pricing script prints above its prices. *)
Definition titles : list string :=
  ["atm 1M european call"; "25d 1W european put"; "1.50 12D european call";
   "atm 1W european put"; "25d 3M european call"; "10d 1M european put";
   "atm 15D european call"; "atm 1W european call"].

(** Where the operands of the fetching, printing and plotting calls come
    from: market data is fetched from a [Market] object with a request
    that [MarketDataRequest] returned; an [FXVolSurface] is made from a
    table that [fetch_market] returned; [to_string] renders a table that
    [price_instrument] returned; what is printed is one of the [titles]
    or such a rendering; what is plotted is an index that
    [create_mult_index_from_prices] returned. *)
Definition sourced (h : history) (c : call) : Prop :=
  (forall args kw, c = CallFn "FXVolSurface" args kw ->
     args = [] /\
     exists df market req,
       ("market_df", df) ∈ kw /\
       (CallMethod market "fetch_market" [req] [], Returned df) ∈ h) /\
  (forall m args kw, c = CallMethod m "fetch_market" args kw ->
     (exists mk, (CallFn "Market" [] mk, Returned m) ∈ h) /\
     exists req rk,
       (CallFn "MarketDataRequest" [] rk, Returned req) ∈ h /\
       (args = [req] /\ kw = [] \/ args = [] /\ kw = [("md_request", req)])) /\
  (forall t args kw, c = CallMethod t "to_string" args kw ->
     args = [] /\ kw = [] /\
     exists pricer pargs pkw,
       (CallMethod pricer "price_instrument" pargs pkw, Returned t) ∈ h) /\
  (forall args kw, c = CallFn "print" args kw ->
     exists x, args = [x] /\ kw = [] /\
       ((exists s, x = VStr s /\ s ∈ titles) \/ rendering h x)) /\
  (forall ch args kw, c = CallMethod ch "plot" args kw ->
     exists idx, args = [idx] /\ kw = [] /\ index_table h idx) /\
  (forall q args kw, c = CallMethod q "plot_chart_with_ret_stats" args kw ->
     exists idx, args = [] /\ ("df", idx) ∈ kw /\ index_table h idx).

Definition script_calls (f : example_file) (h : history) (c : call) : Prop :=
  in_order f h c /\ own_writes f h c /\ sourced h c.

(** The preamble has run: [market] and [chart] are bound to the objects
    that [Market] and [Chart] returned. *)
Definition known (ns : namespace) (h : history) : Prop :=
  exists market chart,
    ns !! "market" = Some market /\ ns !! "chart" = Some chart /\
    (exists kw, (CallFn "Market" [] kw, Returned market) ∈ h) /\
    (exists kw, (CallFn "Chart" [] kw, Returned chart) ∈ h).

(** The namespace is as it was and the calls [h] are still there. *)
Definition extends {A} (ns : namespace) (h : history) (r : A * namespace)
    (h' : history) : Prop :=
  r.2 = ns /\ exists l, h' = h ++ l.

(** An example of the script [f] has gone through: a pricer was made at
    the end of a [pricer_chain] and asked a price, or a curve at the end
    of a [curve_chain] and asked an index. *)
Definition completed (f : example_file) (h : history) : Prop :=
  match f with
  | PricingExamples =>
      exists pricer args kw o,
        (CallMethod pricer "price_instrument" args kw, o) ∈ h /\ pricer_chain h pricer
  | IndicesExamples =>
      exists curve args kw o,
        (CallMethod curve "construct_total_return_index" args kw, o) ∈ h /\
        curve_chain h curve
  end.

Definition block_done (f : example_file) (h : history) (r : unit * namespace)
    (h' : history) : Prop :=
  known r.2 h' /\ completed f h' /\ exists l, h' = h ++ l.

Definition blocks_done (f : example_file) (b : bool) (h : history)
    (r : unit * namespace) (h' : history) : Prop :=
  known r.2 h' /\ (b = true -> completed f h') /\ exists l, h' = h ++ l.

(** The settings of [run_example] that enable an example of [f]: one of
    its numbers, or [0] for all. *)
Definition enabled (f : example_file) (n : Z) : bool :=
  match f with
  | PricingExamples => (0 <=? n)%Z && (n <=? 5)%Z
  | IndicesExamples => (0 <=? n)%Z && (n <=? 2)%Z
  end.

(** The pricing script with every example enabled and the index script
    as committed, run against the recording library. *)
Definition sample_pricing_run
  : list (@event Mock.world) * result (unit * namespace) * Mock.world :=
  run sample_lib (script_of PricingExamples 0 initial_namespace) Mock.empty.

Definition sample_indices_run
  : list (@event Mock.world) * result (unit * namespace) * Mock.world :=
  run sample_lib (script_of IndicesExamples 2 initial_namespace) Mock.empty.

(** ** The preamble and [prepare_indices] on their own *)








(** * Lemmas and theorems *)

Lemma is_None_true v : is_None v = true <-> v = VNone.
Proof. destruct v; simpl; split; congruence. Qed.

Lemma is_None_false v : is_None v = false <-> v <> VNone.
Proof. destruct v; simpl; split; congruence. Qed.

(** ** Reading a run backwards *)

Section Runs.
Context {W : Type} (lib : call -> W -> outcome * W).

Lemma run_call_inv {A} c (k : value -> prog A) w tr r w' :
  run lib (Call c k) w = (tr, r, w') ->
  (exists e, lib c w = (Raised e, w') /\ tr = [Event w c (Raised e)] /\
             r = Err (External e)) \/
  (exists v w1 tr1,
     lib c w = (Returned v, w1) /\ run lib (k v) w1 = (tr1, r, w') /\
     tr = Event w c (Returned v) :: tr1).
Proof.
  simpl. destruct (lib c w) as [[v|e] w1] eqn:E.
  - destruct (run lib (k v) w1) as [[tr1 r1] w2] eqn:E1.
    intros [= <- <- <-]. right. by exists v, w1, tr1.
  - intros [= <- <- <-]. left. by exists e.
Qed.

Lemma run_bind_ok {A B} (p : prog A) (f : A -> prog B) w tr b w' :
  run lib (prog_bind p f) w = (tr, Ok b, w') ->
  exists a tr1 w1 tr2,
    run lib p w = (tr1, Ok a, w1) /\ run lib (f a) w1 = (tr2, Ok b, w') /\
    tr = tr1 ++ tr2.
Proof.
  revert w tr. induction p as [a|e|c k IH]; intros w tr; simpl.
  - intros H. by exists a, [], w, tr.
  - discriminate.
  - destruct (lib c w) as [[v|e] w1]; [|discriminate].
    destruct (run lib (prog_bind (k v) f) w1) as [[tr1 r1] w2] eqn:E.
    intros [= <- -> ->].
    destruct (IH v _ _ E) as (a & tr2 & w3 & tr3 & E1 & E2 & ->).
    exists a, (Event w c (Returned v) :: tr2), w3, tr3.
    by rewrite E1.
Qed.

Lemma script_bind_ok {A B} (m : script A) (f : A -> script B) ns w tr b ns' w' :
  run lib ((m ≫= f) ns) w = (tr, Ok (b, ns'), w') ->
  exists a ns1 tr1 w1 tr2,
    run lib (m ns) w = (tr1, Ok (a, ns1), w1) /\
    run lib (f a ns1) w1 = (tr2, Ok (b, ns'), w') /\
    tr = tr1 ++ tr2.
Proof.
  intros H. apply run_bind_ok in H as ([a ns1] & tr1 & w1 & tr2 & H1 & H2 & ->).
  by exists a, ns1, tr1, w1, tr2.
Qed.

Lemma mret_ok {A} (a b : A) (ns ns' : namespace) w tr w' :
  run lib ((mret a : script A) ns) w = (tr, Ok (b, ns'), w') ->
  b = a /\ ns' = ns /\ tr = [] /\ w' = w.
Proof. simpl. by intros [= <- <- <- <-]. Qed.

Lemma global_ok x (ns ns' : namespace) w tr v w' :
  run lib (global x ns) w = (tr, Ok (v, ns'), w') ->
  ns !! x = Some v /\ ns' = ns /\ tr = [] /\ w' = w.
Proof.
  unfold global. destruct (ns !! x); simpl; [|discriminate].
  by intros [= <- <- <- <-].
Qed.

Lemma ext_ok c (ns ns' : namespace) w tr v w' :
  run lib (ext c ns) w = (tr, Ok (v, ns'), w') ->
  lib c w = (Returned v, w') /\ ns' = ns /\ tr = [Event w c (Returned v)].
Proof.
  unfold ext. simpl. destruct (lib c w) as [[u|e] w1]; [|discriminate].
  by intros [= <- <- <- <-].
Qed.

(** A call that raises is the last of the run, and the run ends with the
    very exception it raised. *)
Lemma run_raised {A} (p : prog A) w tr r w' ev e :
  run lib p w = (tr, r, w') -> ev ∈ tr -> ev_out ev = Raised e ->
  r = Err (External e) /\ last tr = Some ev.
Proof.
  revert w tr. induction p as [a|x|c k IH]; intros w tr; simpl.
  - intros [= <- _ _] Hin. by apply elem_of_nil in Hin.
  - intros [= <- _ _] Hin. by apply elem_of_nil in Hin.
  - destruct (lib c w) as [[v|x] w1].
    + destruct (run lib (k v) w1) as [[tr1 r1] w2] eqn:E.
      intros [= <- <- <-] Hin Hout.
      apply elem_of_cons in Hin as [->|Hin]; [discriminate|].
      destruct (IH v _ _ E Hin Hout) as [-> Hlast]. split; [done|].
      destruct tr1; [by apply elem_of_nil in Hin|done].
    + intros [= <- <- <-] Hin Hout.
      apply list_elem_of_singleton in Hin as ->. simpl in Hout.
      by injection Hout as ->.
Qed.

Lemma log_app (tr1 tr2 : list (@event W)) : log (tr1 ++ tr2) = log tr1 ++ log tr2.
Proof. apply map_app. Qed.

Lemma entry_points_log (tr : list (@event W)) :
  entry_points tr = map (fun x => entry x.1) (log tr).
Proof. unfold entry_points, log. by rewrite map_map. Qed.
End Runs.

(** Takes a returning run apart along the binds of the script. *)
Ltac script_inv :=
  repeat match goal with
  | H : run _ ((_ ≫= _) _) _ = (_, Ok _, _) |- _ =>
      apply script_bind_ok in H as (? & ? & ? & ? & ? & ? & H & ->)
  | H : run _ (mret _ _) _ = (_, Ok _, _) |- _ =>
      apply mret_ok in H as (? & -> & -> & ->)
  | H : run _ (script_ret _ _) _ = (_, Ok _, _) |- _ =>
      apply mret_ok in H as (? & -> & -> & ->)
  | H : run _ (global _ _) _ = (_, Ok _, _) |- _ =>
      apply global_ok in H as (? & -> & -> & ->)
  | H : run _ (ext _ _) _ = (_, Ok _, _) |- _ =>
      apply ext_ok in H as (? & -> & ->)
  end.

(** ** The log of [prepare_indices] *)

Section PrepareIndices.
Context {W : Type} (lib : call -> W -> outcome * W).

Lemma column_frame_ok (ns ns' : namespace) cross df suffix w tr f w' :
  ns !! "cross" = Some (VStr cross) ->
  run lib (column_frame df suffix ns) w = (tr, Ok (f, ns'), w') ->
  exists col, ns' = ns /\ log tr = select_entry df cross suffix (col, f).
Proof.
  intros Hc H. unfold column_frame, callfn, getitem in H. script_inv.
  match goal with H : ns !! "cross" = Some ?x |- _ =>
    rewrite Hc in H; injection H as <- end.
  simpl py_add in *. script_inv. subst.
  eexists. split; [done|]. reflexivity.
Qed.

(** One of the two guarded groups of three appends. *)
Lemma select_three_ok (ns ns' : namespace) cross df s1 s2 s3 (l l' : list value)
    w tr w' :
  ns !! "cross" = Some (VStr cross) ->
  run lib
    ((if is_None df then script_ret l else
        f1 ← column_frame df s1;
        f2 ← column_frame df s2;
        f3 ← column_frame df s3;
        script_ret (l ++ [f1; f2; f3])) ns) w = (tr, Ok (l', ns'), w') ->
  exists picked,
    ns' = ns /\ length picked = (if is_None df then 0 else 3) /\
    l' = l ++ picked.*2 /\
    log tr = selection_log df cross [s1; s2; s3] picked.
Proof.
  intros Hc H. destruct (is_None df).
  - script_inv. subst. exists []. by rewrite app_nil_r.
  - script_inv.
    repeat match goal with
    | H : run lib (column_frame _ _ _) _ = _ |- _ =>
        apply (column_frame_ok _ _ cross) in H as (? & -> & ?); [|done]
    end.
    subst.
    match goal with
    | H1 : log _ = select_entry _ _ s1 (?c1, ?f1),
      H2 : log _ = select_entry _ _ s2 (?c2, ?f2),
      H3 : log _ = select_entry _ _ s3 (?c3, ?f3) |- _ =>
        exists [(c1, f1); (c2, f2); (c3, f3)];
        rewrite !log_app, H1, H2, H3
    end.
    done.
Qed.

(** Every returning run of [prepare_indices], whichever arguments are
    [None]: the columns picked from [df_tot], those picked from [df_tc],
    then the join of all frames, its forward fill and the index made
    from it, which is the value returned.  The namespace is left as it
    was found. *)
Lemma prepare_indices_ok_log (ns : namespace) cross df_tot df_tc df_spot_tot
    w tr r ns' w' :
  ns !! "cross" = Some (VStr cross) ->
  run lib (prepare_indices df_tot df_tc df_spot_tot ns) w = (tr, Ok (r, ns'), w') ->
  exists calc tot tc joined filled,
    ns !! "calculations" = Some calc /\ ns' = ns /\
    length tot = (if is_None df_tot then 0 else 3) /\
    length tc = (if is_None df_tc then 0 else 3) /\
    log tr =
      selection_log df_tot cross tot_columns tot ++
      selection_log df_tc cross tc_columns tc ++
      join_log calc
        (tot.*2 ++ tc.*2 ++ (if is_None df_spot_tot then [] else [df_spot_tot]))
        joined filled r.
Proof.
  intros Hc H. unfold prepare_indices in H.
  apply script_bind_ok in H as (l1 & ns1 & tr1 & w1 & tr2 & H1 & H & ->).
  apply (select_three_ok _ _ cross) in H1 as (tot & -> & Htot & -> & Ltot); [|done].
  apply script_bind_ok in H as (l2 & ns2 & tr3 & w2 & tr4 & H2 & H & ->).
  apply (select_three_ok _ _ cross) in H2 as (tc & -> & Htc & -> & Ltc); [|done].
  apply script_bind_ok in H as (l3 & ns3 & tr5 & w3 & tr6 & H3 & H & ->).
  assert (ns3 = ns /\ tr5 = [] /\
          l3 = tot.*2 ++ tc.*2 ++ (if is_None df_spot_tot then [] else [df_spot_tot]))
    as (-> & -> & ->).
  { destruct (is_None df_spot_tot); script_inv; subst; simpl;
      by rewrite ?app_nil_r, <-?app_assoc. }
  unfold method in H. script_inv. subst.
  match goal with
  | Hk : ns !! "calculations" = Some ?c, Hk' : ns !! "calculations" = Some ?c' |- _ =>
      rewrite Hk in Hk'; injection Hk' as <-; exists c
  end.
  exists tot, tc. do 2 eexists.
  split; [done|]. split; [done|]. split; [done|]. split; [done|].
  rewrite !log_app, Ltot, Ltc. reflexivity.
Qed.
End PrepareIndices.

(** ** Which module-level names a script reads *)

Lemma sim_bind {A B A' B'} (R : A -> B -> Prop) (S : A' -> B' -> Prop) p1 p2 f g :
  sim R p1 p2 -> (forall a b, R a b -> sim S (f a) (g b)) ->
  sim S (prog_bind p1 f) (prog_bind p2 g).
Proof.
  intros Hp Hf. induction Hp as [a b HR|e|c k1 k2 _ IH]; simpl.
  - by apply Hf.
  - constructor.
  - constructor. exact IH.
Qed.

Lemma reads_ret X {A} (a : A) : reads X (mret a).
Proof. intros ns1 ns2 H. by constructor. Qed.

Lemma reads_script_ret X {A} (a : A) : reads X (script_ret a).
Proof. apply reads_ret. Qed.

Lemma reads_bind X {A B} (m : script A) (f : A -> script B) :
  reads X m -> (forall a, reads X (f a)) -> reads X (m ≫= f).
Proof.
  intros Hm Hf ns1 ns2 H. eapply sim_bind; [by apply Hm|].
  intros [a ns1'] [b ns2'] [Hab Hns]. simpl in *. subst b. by apply Hf.
Qed.

Lemma reads_global X x : x ∈ X -> reads X (global x).
Proof.
  intros Hx ns1 ns2 H. unfold global. rewrite (H x Hx).
  destruct (ns2 !! x); by constructor.
Qed.

Lemma reads_assign X x v : reads X (assign x v).
Proof.
  intros ns1 ns2 H. constructor. split; [done|]. intros y Hy. simpl.
  destruct (decide (x = y)) as [->|Hne].
  - by rewrite !lookup_insert_eq.
  - rewrite !lookup_insert_ne by done. by apply H.
Qed.

Lemma reads_ext X c : reads X (ext c).
Proof. intros ns1 ns2 H. constructor. intros v. by constructor. Qed.

Lemma reads_py_add X a b : reads X (py_add a b).
Proof.
  destruct a, b; simpl; first [apply reads_ext | apply reads_script_ret].
Qed.

Lemma reads_if X {A} (c : bool) (s1 s2 : script A) :
  reads X s1 -> reads X s2 -> reads X (if c then s1 else s2).
Proof. by destruct c. Qed.

Create HintDb reads.
#[export] Hint Resolve reads_ret reads_script_ret reads_bind reads_ext
  reads_assign reads_py_add reads_if : reads.
#[export] Hint Extern 1 (reads _ (global _)) =>
  apply reads_global; set_solver : reads.
#[export] Hint Extern 1 (reads _ (callfn _ _ _)) => apply reads_ext : reads.
#[export] Hint Extern 1 (reads _ (method _ _ _ _)) => apply reads_ext : reads.
#[export] Hint Extern 1 (reads _ (getitem _ _)) => apply reads_ext : reads.

Lemma reads_column_frame df suffix :
  reads ["cross"; "calculations"] (column_frame df suffix).
Proof. unfold column_frame. auto 10 with reads. Qed.

Lemma reads_prepare_indices df_tot df_tc df_spot_tot :
  reads ["cross"; "calculations"] (prepare_indices df_tot df_tc df_spot_tot).
Proof.
  unfold prepare_indices.
  repeat first
    [ apply reads_bind; [|intros ?]
    | apply reads_if
    | apply reads_column_frame
    | solve [auto with reads] ].
Qed.

Lemma sim_run {W} (lib : call -> W -> outcome * W) X {A}
    (p1 p2 : prog (A * namespace)) w :
  sim (same_value X) p1 p2 -> returned (run lib p1 w) = returned (run lib p2 w).
Proof.
  intros H. revert w. induction H as [a b [Hab _]|e|c k1 k2 _ IH]; intros w.
  - unfold returned. simpl. by rewrite Hab.
  - reflexivity.
  - simpl. destruct (lib c w) as [[v|e] w1]; [|reflexivity].
    specialize (IH v w1). unfold returned in *.
    destruct (run lib (k1 v) w1) as [[tr1 r1] w2].
    destruct (run lib (k2 v) w1) as [[tr2 r2] w3].
    simpl in *. by injection IH as -> -> ->.
Qed.

(** ** [prepare_indices] *)

(** C1, as the spec has it: no function defined in the scripts branches
    on its own.  [prepare_indices] does: with all three arguments [None]
    it goes through three entry points, with a frame for [df_tot] through
    nine, so the entry points are not the same whatever it is given. *)
Lemma prepare_indices_branches : ~ straight_line prepare_indices.
Proof.
  intros H.
  assert (H1 : run sample_lib (prepare_indices VNone VNone VNone sample_namespace)
                 sample_world =
               (trace_of (run sample_lib
                            (prepare_indices VNone VNone VNone sample_namespace)
                            sample_world),
                Ok (VObj 6, sample_namespace), Mock.World 7 []))
    by (vm_compute; reflexivity).
  assert (H2 : run sample_lib (prepare_indices (VObj 1) VNone VNone sample_namespace)
                 sample_world =
               (trace_of (run sample_lib
                            (prepare_indices (VObj 1) VNone VNone sample_namespace)
                            sample_world),
                Ok (VObj 12, sample_namespace), Mock.World 13 []))
    by (vm_compute; reflexivity).
  pose proof (H _ _ _ _ _ _ _ _ _ _ _ _ _ _ _ _ H1 H2) as H'.
  vm_compute in H'. discriminate.
Qed.

(** C1, amended: the branching of [prepare_indices] is the three tests
    for [None] and nothing else.  With [cross] a string, the entry points
    of a returning run are fixed by which of [df_tot] and [df_tc] are
    [None]: three column selections for each that is given, then the
    join, the forward fill and the index. *)
Theorem prepare_indices_call_shape {W} (lib : call -> W -> outcome * W)
    (ns : namespace) cross df_tot df_tc df_spot_tot w tr r w' :
  ns !! "cross" = Some (VStr cross) ->
  run lib (prepare_indices df_tot df_tc df_spot_tot ns) w = (tr, Ok r, w') ->
  entry_points tr = call_shape df_tot df_tc.
Proof.
  intros Hc H. destruct r as [r ns'].
  apply (prepare_indices_ok_log _ _ cross) in H
    as (calc & tot & tc & joined & filled & _ & _ & Htot & Htc & Hlog); [|done].
  rewrite entry_points_log, Hlog, !map_app. unfold call_shape.
  f_equal; [|f_equal].
  - destruct (is_None df_tot).
    + by destruct tot.
    + by destruct tot as [|? [|? [|? [|]]]].
  - destruct (is_None df_tc).
    + by destruct tc.
    + by destruct tc as [|? [|? [|? [|]]]].
Qed.

Lemma prepare_indices_call_shape_witness :
  entry_points
    (trace_of (run sample_lib
                 (prepare_indices (VObj 1) VNone (VObj 3) sample_namespace)
                 sample_world)) =
  call_shape (VObj 1) VNone.
Proof.
  apply (prepare_indices_call_shape sample_lib sample_namespace "AUDUSD"
           (VObj 1) VNone (VObj 3) sample_world _
           (VObj 12, sample_namespace) (Mock.World 13 [])).
  - vm_compute. reflexivity.
  - vm_compute. reflexivity.
Defined.

(** C2, as the spec has it: what [prepare_indices] returns hangs on its
    arguments alone.  It reads the module-level [cross]: on one frame
    that has the columns of both crosses, it returns the AUDUSD index
    when [cross] is AUDUSD and the EURUSD index when it is EURUSD. *)
Lemma prepare_indices_reads_cross : ~ determined_by_arguments.
Proof.
  intros H.
  specialize (H unit Labels.lib tt sample_namespace
                (<["cross" := VStr "EURUSD"]> sample_namespace)
                two_cross_frame VNone VNone).
  vm_compute in H. discriminate.
Qed.

(** C2, amended: a call of [prepare_indices] is fixed by its three
    arguments together with the module-level names [cross] and
    [calculations] it reads (and the library it calls).  In two
    namespaces that agree on these two names, equal arguments give the
    same calls, the same value or exception, and the same world. *)
Theorem prepare_indices_reads_two_names {W} (lib : call -> W -> outcome * W)
    (ns1 ns2 : namespace) df_tot df_tc df_spot_tot w :
  ns1 !! "cross" = ns2 !! "cross" ->
  ns1 !! "calculations" = ns2 !! "calculations" ->
  returned (run lib (prepare_indices df_tot df_tc df_spot_tot ns1) w) =
  returned (run lib (prepare_indices df_tot df_tc df_spot_tot ns2) w).
Proof.
  intros Hc Hk. eapply sim_run, reads_prepare_indices.
  intros x Hx. set_unfold in Hx. by destruct Hx as [->|[->|[]]].
Qed.

Lemma prepare_indices_reads_two_names_witness :
  returned (run sample_lib
              (prepare_indices (VObj 1) (VObj 2) (VObj 3) sample_namespace)
              sample_world) =
  returned (run sample_lib
              (prepare_indices (VObj 1) (VObj 2) (VObj 3)
                 (<["run_example" := VInt 2]> sample_namespace))
              sample_world).
Proof.
  apply prepare_indices_reads_two_names; reflexivity.
Defined.

(** C4: called with a [df_tot] that is not [None], in a namespace where
    [cross] is a string, a returning run of [prepare_indices] selects
    exactly the three columns [tot_columns] of [df_tot], in that order;
    then, when [df_tc] is not [None], the three columns [tc_columns] of
    [df_tc]; the frames of these columns, with [df_spot_tot] whole and
    last when it is not [None], go to [pandas_outer_join]; and the value
    returned is [create_mult_index_from_prices] of the forward fill of
    that join. *)
Theorem prepare_indices_selects {W} (lib : call -> W -> outcome * W)
    (ns : namespace) cross df_tot df_tc df_spot_tot w tr r ns' w' :
  ns !! "cross" = Some (VStr cross) ->
  is_None df_tot = false ->
  run lib (prepare_indices df_tot df_tc df_spot_tot ns) w = (tr, Ok (r, ns'), w') ->
  exists calc tot tc joined filled,
    ns !! "calculations" = Some calc /\
    length tot = 3 /\
    length tc = (if is_None df_tc then 0 else 3) /\
    log tr =
      selection_log df_tot cross tot_columns tot ++
      selection_log df_tc cross tc_columns tc ++
      join_log calc
        (tot.*2 ++ tc.*2 ++ (if is_None df_spot_tot then [] else [df_spot_tot]))
        joined filled r.
Proof.
  intros Hc Hn H.
  apply (prepare_indices_ok_log _ _ cross) in H
    as (calc & tot & tc & joined & filled & Hk & _ & Htot & Htc & Hlog); [|done].
  rewrite Hn in Htot. by exists calc, tot, tc, joined, filled.
Qed.

Lemma prepare_indices_selects_witness :
  exists calc tot tc joined filled,
    sample_namespace !! "calculations" = Some calc /\
    length tot = 3 /\
    length tc = 3 /\
    log (trace_of (run sample_lib
                     (prepare_indices (VObj 1) (VObj 2) (VObj 3) sample_namespace)
                     sample_world)) =
      selection_log (VObj 1) "AUDUSD" tot_columns tot ++
      selection_log (VObj 2) "AUDUSD" tc_columns tc ++
      join_log calc (tot.*2 ++ tc.*2 ++ [VObj 3]) joined filled (VObj 18).
Proof.
  apply (prepare_indices_selects sample_lib sample_namespace "AUDUSD"
           (VObj 1) (VObj 2) (VObj 3) sample_world _
           (VObj 18) sample_namespace (Mock.World 19 [])).
  - reflexivity.
  - vm_compute. reflexivity.
  - vm_compute. reflexivity.
Defined.

(** None of the entries of a log written out is a column selection. *)
Ltac no_getitem :=
  let x := fresh "x" in let Hx := fresh "Hx" in
  intros x ? ? Hx; simpl in Hx;
  repeat (apply elem_of_cons in Hx as [->|Hx]; [done|]);
  by apply elem_of_nil in Hx.

(** C6: called with its three arguments [None], in a namespace where
    [calculations] is bound, [prepare_indices] selects no column; its
    first call passes the empty list to [pandas_outer_join]; and when it
    returns, it has made three calls: that join, the forward fill of its
    result, and [create_mult_index_from_prices] of the filled frame,
    whose value it returns. *)
Theorem prepare_indices_defaults {W} (lib : call -> W -> outcome * W)
    (ns : namespace) calc w tr res w' :
  ns !! "calculations" = Some calc ->
  run lib (prepare_indices VNone VNone VNone ns) w = (tr, res, w') ->
  (forall e obj key, e ∈ log tr -> e.1 <> GetItem obj key) /\
  (exists o, head (log tr) =
             Some (CallMethod calc "pandas_outer_join" [VList []] [], o)) /\
  (forall r ns', res = Ok (r, ns') ->
     exists joined filled, log tr = join_log calc [] joined filled r).
Proof.
  intros Hk H.
  unfold prepare_indices, method, global, ext, mbind, script_mbind, script_bind,
    script_ret in H.
  cbn -[run] in H. rewrite Hk in H. cbn -[run] in H.
  apply run_call_inv in H as [(e & E & -> & ->)|(joined & w1 & tr1 & E & H & ->)].
  { split; [|split].
    - no_getitem.
    - by eexists.
    - discriminate. }
  apply run_call_inv in H as [(e & E1 & -> & ->)|(filled & w2 & tr2 & E1 & H & ->)].
  { split; [|split].
    - no_getitem.
    - by eexists.
    - discriminate. }
  rewrite Hk in H. cbn -[run] in H.
  apply run_call_inv in H as [(e & E2 & -> & ->)|(r & w3 & tr3 & E2 & H & ->)].
  { split; [|split].
    - no_getitem.
    - by eexists.
    - discriminate. }
  simpl in H. injection H as <- <- <-.
  split; [|split].
  - no_getitem.
  - by eexists.
  - intros r' ns' [= <- <-]. by exists joined, filled.
Qed.

Lemma prepare_indices_defaults_witness :
  let tr := trace_of (run sample_lib
                        (prepare_indices VNone VNone VNone sample_namespace)
                        sample_world) in
  (forall e obj key, e ∈ log tr -> e.1 <> GetItem obj key) /\
  (exists o, head (log tr) =
             Some (CallMethod (VObj 0) "pandas_outer_join" [VList []] [], o)) /\
  (forall r ns', Ok (VObj 6, sample_namespace) = Ok (r, ns') ->
     exists joined filled, log tr = join_log (VObj 0) [] joined filled r).
Proof.
  apply (prepare_indices_defaults sample_lib sample_namespace (VObj 0) sample_world
           _ (Ok (VObj 6, sample_namespace)) (Mock.World 7 [])).
  - vm_compute. reflexivity.
  - vm_compute. reflexivity.
Defined.
(** ** Runs as triples *)

Lemma triple_eta {A B C} (x : A * B * C) : x = (x.1.1, x.1.2, x.2).
Proof. by destruct x as [[a b] c]. Qed.

(** A run that returned, with what it returned. *)
Lemma ok_eta {A} (res : result A) (d : A) :
  match res with Ok _ => true | Err _ => false end = true ->
  res = Ok (match res with Ok r => r | Err _ => d end).
Proof. by destruct res. Qed.

(** ** Splitting a log at a fetch *)

Lemma split_at_nil {A} (p : A -> bool) n pre e :
  split_at p n [] = Some (pre, e) -> False.
Proof. discriminate. Qed.

Lemma split_at_skip {A} (p : A -> bool) n x l pre e :
  p x = false -> split_at p n (x :: l) = Some (pre, e) ->
  exists pre', pre = x :: pre' /\ split_at p n l = Some (pre', e).
Proof.
  intros Hp. simpl. rewrite Hp.
  destruct (split_at p n l) as [[pre' e']|]; [|discriminate].
  intros [= <- <-]. by exists pre'.
Qed.

Lemma split_at_pass {A} (p : A -> bool) n x l pre e :
  p x = true -> split_at p (S n) (x :: l) = Some (pre, e) ->
  exists pre', pre = x :: pre' /\ split_at p n l = Some (pre', e).
Proof.
  intros Hp. simpl. rewrite Hp.
  destruct (split_at p n l) as [[pre' e']|]; [|discriminate].
  intros [= <- <-]. by exists pre'.
Qed.

Lemma split_at_hit {A} (p : A -> bool) x l pre e :
  p x = true -> split_at p 0 (x :: l) = Some (pre, e) -> pre = [] /\ e = x.
Proof. intros Hp. simpl. rewrite Hp. by intros [= <- <-]. Qed.

(** Moves [split_at] past the first entry of a log. *)
Ltac split_step Hs :=
  first
    [ apply split_at_hit in Hs as [-> ->]; [|reflexivity]
    | apply split_at_pass in Hs as (? & -> & Hs); [|reflexivity]
    | apply split_at_skip in Hs as (? & -> & Hs); [|reflexivity]
    | apply split_at_nil in Hs; destruct Hs ].

(** Looks a name up in a namespace written as a chain of assignments. *)
Ltac lookup_tac :=
  repeat first [ apply lookup_insert_eq | rewrite lookup_insert_ne by discriminate ];
  first [ eassumption | reflexivity ].

Ltac resolve_lookup H :=
  match type of H with
  | context [@lookup _ _ (gmap string value) _ ?k (<[?a:=?v]> ?m)] =>
      let E := fresh "E" in
      eassert (<[a:=v]> m !! k = _) as E by lookup_tac;
      rewrite E in H; clear E
  end.

(** Brings the program of the run [H] to its next call, leaving what
    comes after the call as it is written. *)
Ltac head_reduce H :=
  lazymatch type of H with
  | run ?l ?p ?w = ?r =>
      let p' := eval lazy head beta iota zeta
                  delta -[lookup insert prepare_indices comprehension py_iter] in p in
      change (run l p' w = r) in H
  end.

Ltac norm H :=
  head_reduce H; repeat (resolve_lookup H; head_reduce H).

(** Runs [H] call by call for as long as [Hs] still looks for its entry,
    with one goal for each way the run can go. *)
Ltac stepping H Hs :=
  repeat (
    norm H;
    lazymatch goal with
    | Hs : split_at _ _ _ = _ |- _ => idtac
    end;
    match type of H with
    | run _ (Call _ _) _ = _ =>
        let E := fresh "E" in
        apply run_call_inv in H as [(? & E & -> & ->)|(? & ? & ? & E & H & ->)];
        [split_step Hs; try split_step Hs|split_step Hs]
    | context [@lookup _ _ (gmap string value) _ ?x ?ns] =>
        is_var ns;
        lazymatch goal with
        | E : ns !! x = _ |- _ => rewrite E in H
        | _ => destruct (ns !! x) eqn:?
        end
    | run _ (Ret _) _ = _ => injection H as <- <- <-; split_step Hs
    | run _ (Throw _) _ = _ => injection H as <- <- <-; split_step Hs
    end).


(** * The scripts against every library *)

Section Wp.
Context (ok : history -> call -> Prop) (fine : exn -> Prop).

Lemma wph_sound {W} (lib : call -> W -> outcome * W) {A} (p : prog A) h Q w tr res w' :
  wph ok fine h p Q -> run lib p w = (tr, res, w') ->
  always ok h (log tr) /\
  (forall a, res = Ok a -> Q a (h ++ log tr)) /\
  (forall e, res = Err e ->
     fine e \/
     exists ev v, last tr = Some ev /\ ev_out ev = Raised v /\ e = External v).
Proof.
  revert h w tr. induction p as [a|e|c k IH]; intros h w tr Hwp; simpl.
  - intros [= <- <- <-]. split; [|split].
    + intros [|] ? ? ?; discriminate.
    + intros a' [= <-]. simpl. by rewrite app_nil_r.
    + discriminate.
  - intros [= <- <- <-]. split; [|split].
    + intros [|] ? ? ?; discriminate.
    + discriminate.
    + intros e' [= <-]. by left.
  - destruct Hwp as [Hok Hk]. destruct (lib c w) as [[v|e] w1].
    + destruct (run lib (k v) w1) as [[tr1 r1] w2] eqn:E. intros [= <- <- <-].
      destruct (IH v _ _ _ (Hk v) E) as (Hal & HQ & He). split; [|split].
      * intros [|x l1] c' o l2; simpl.
        -- intros [= <- _ _]. by rewrite app_nil_r.
        -- intros [= <- Hl]. specialize (Hal l1 c' o l2 Hl).
           by rewrite <- app_assoc in Hal.
      * intros a ->. specialize (HQ a eq_refl). simpl.
        by rewrite <- app_assoc in HQ.
      * intros e Hr. destruct (He e Hr) as [Hf|(ev & u & Hl & Ho & ->)]; [by left|].
        right. exists ev, u. split; [|done].
        destruct tr1; [discriminate Hl|done].
    + intros [= <- <- <-]. split; [|split].
      * intros [|x [|]] c' o l2; simpl; intros [= <- _ _].
        by rewrite app_nil_r.
      * discriminate.
      * intros e' [= <-]. right. by eexists _, _.
Qed.

Lemma wph_bind {A B} h (p : prog A) (f : A -> prog B) Q :
  wph ok fine h p (fun a h' => wph ok fine h' (f a) Q) ->
  wph ok fine h (prog_bind p f) Q.
Proof.
  revert h. induction p as [a|e|c k IH]; intros h; simpl; [done|done|].
  intros [Hok Hk]. split; [done|]. intros v. apply IH, Hk.
Qed.

Lemma wph_mono {A} h (p : prog A) (Q Q' : A -> history -> Prop) :
  (forall a h', Q a h' -> Q' a h') -> wph ok fine h p Q -> wph ok fine h p Q'.
Proof.
  intros HQ. revert h. induction p as [a|e|c k IH]; intros h; simpl; [apply HQ|done|].
  intros [Hok Hk]. split; [done|]. intros v. apply IH, Hk.
Qed.

Lemma wph_ret {A} h (a : A) (Q : A -> history -> Prop) :
  Q a h -> wph ok fine h (Ret a) Q.
Proof. done. Qed.

Lemma wph_call {A} h l c (k : value -> prog A) Q :
  ok (h ++ l) c ->
  (forall v, wph ok fine (h ++ (l ++ [(c, Returned v)])) (k v) Q) ->
  wph ok fine (h ++ l) (Call c k) Q.
Proof. intros Hc Hk. split; [done|]. intros v. rewrite <- app_assoc. apply Hk. Qed.

Lemma wph_start {A} h (p : prog A) Q : wph ok fine (h ++ []) p Q -> wph ok fine h p Q.
Proof. by rewrite app_nil_r. Qed.
End Wp.

Lemma wph_weaken {A} (ok ok' : history -> call -> Prop) (fine fine' : exn -> Prop)
    h (p : prog A) (Q Q' : A -> history -> Prop) :
  (forall h c, ok h c -> ok' h c) -> (forall e, fine e -> fine' e) ->
  (forall a h', Q a h' -> Q' a h') ->
  wph ok fine h p Q -> wph ok' fine' h p Q'.
Proof.
  intros Ho Hf HQ. revert h.
  induction p as [a|e|c k IH]; intros h; simpl; [apply HQ|apply Hf|].
  intros [Hok Hk]. split; [by apply Ho|]. intros v. apply IH, Hk.
Qed.

Lemma always_mono (ok ok' : history -> call -> Prop) h l :
  (forall h c, ok h c -> ok' h c) -> always ok h l -> always ok' h l.
Proof. intros Hi Ha l1 c o l2 E. apply Hi, (Ha l1 c o l2 E). Qed.

Lemma extends_inv {A} ns h (a : A) ns' h' :
  extends ns h (a, ns') h' -> ns' = ns /\ exists l, h' = h ++ l.
Proof. done. Qed.

Lemma extends_refl {A} ns h (a : A) : extends ns h (a, ns) h.
Proof. split; [done|]. exists []. by rewrite app_nil_r. Qed.

Lemma extends_step {A} ns h e (a : A) : extends ns h (a, ns) (h ++ [e]).
Proof. split; [done|]. by eexists. Qed.

Lemma script_calls_operator f h c : is_operator c = true -> script_calls f h c.
Proof.
  intros Hc. destruct c; try discriminate Hc.
  all: split; [repeat split; try (intros r Hs; discriminate Hs); done|].
  all: split; [intros ? ? ? [=]|].
  all: repeat split; intros; discriminate.
Qed.

(** ** Walking a script call by call *)

Ltac elem_search :=
  first [ eassumption
        | apply list_elem_of_here
        | apply list_elem_of_further; elem_search
        | apply elem_of_app; left; elem_search
        | apply elem_of_app; right; elem_search ].

Ltac sub_search :=
  lazymatch goal with
  | |- sublist [] _ => apply sublist_nil_l
  | |- sublist _ (_ ++ _) =>
      first [ apply sublist_inserts_r; sub_search | apply sublist_inserts_l; sub_search ]
  | |- sublist _ (_ :: _) =>
      first [ apply sublist_skip; sub_search | apply sublist_cons; sub_search ]
  end.

Ltac find_made := unfold made; eexists; elem_search.

Ltac find_chain :=
  lazymatch goal with
  | |- pricer_chain _ _ =>
      unfold pricer_chain; eexists _, _, _, _, _, _; split; [sub_search|elem_search]
  | |- curve_chain _ _ =>
      unfold curve_chain; eexists _, _, _, _, _; sub_search
  end.

Ltac solve_order :=
  split; [|split; [|split]];
  [ intros ? Hr; first [discriminate Hr | injection Hr as <-; find_made]
  | intros ? Hr Hm; vm_compute in Hm;
    first [discriminate Hm | injection Hr as <-; find_chain]
  | intros ? Hr Hm; vm_compute in Hm;
    first [discriminate Hm | injection Hr as <-; find_chain]
  | first [ solve [intros [=]] | intros _; reflexivity ] ].

Ltac solve_writes :=
  intros ? ? ? Hw;
  first [ discriminate Hw
        | injection Hw as <- <- <-; split; [reflexivity|];
          first [ left; split; [eexists; elem_search|elem_search]
                | right; eexists _, _, _; split; [elem_search|split; reflexivity] ] ].

Ltac solve_sourced :=
  split; [|split; [|split; [|split; [|split]]]];
  [ intros ? ? Hs;
    first [ discriminate Hs
          | injection Hs as <- <-; split; [reflexivity|];
            eexists _, _, _; split; elem_search ]
  | intros ? ? ? Hs;
    first [ discriminate Hs
          | injection Hs as <- <- <-; split; [eexists; elem_search|];
            eexists _, _; split; [elem_search|];
            first [left; split; reflexivity | right; split; reflexivity] ]
  | intros ? ? ? Hs;
    first [ discriminate Hs
          | injection Hs as <- <- <-; split; [reflexivity|]; split; [reflexivity|];
            eexists _, _, _; elem_search ]
  | intros ? ? Hs;
    first [ discriminate Hs
          | injection Hs as <- <-; eexists; split; [reflexivity|]; split; [reflexivity|];
            first [ left; eexists; split; [reflexivity|unfold titles; elem_search]
                  | right; unfold rendering; eexists _, _, _, _; split; elem_search ] ]
  | intros ? ? ? Hs;
    first [ discriminate Hs
          | injection Hs as <- <- <-; eexists; split; [reflexivity|];
            split; [reflexivity|]; unfold index_table; eexists _, _; elem_search ]
  | intros ? ? ? Hs;
    first [ discriminate Hs
          | injection Hs as <- <- <-; eexists; split; [reflexivity|];
            split; [elem_search|]; unfold index_table; eexists _, _; elem_search ] ].

Ltac solve_script := split; [solve_order|split; [solve_writes|solve_sourced]].

Ltac head_goal :=
  lazymatch goal with
  | |- wph ?ok ?fine ?h ?p ?Q =>
      let p' := eval lazy head beta iota zeta
                  delta -[lookup insert prepare_indices comprehension py_iter py_add
                          when prog_bind] in p in
      change (wph ok fine h p' Q)
  end.

Ltac resolve_goal :=
  match goal with
  | |- context [@lookup _ _ (gmap string value) _ ?k (<[?a:=?v]> ?m)] =>
      let E := fresh "E" in
      eassert (<[a:=v]> m !! k = _) as E by lookup_tac;
      rewrite E; clear E
  end.

Ltac tidy_history :=
  lazymatch goal with
  | |- wph ?ok ?fine (?h ++ ?l) ?p ?Q =>
      let l' := eval cbn [app] in l in change (wph ok fine (h ++ l') p Q)
  end.

(** Goes through a part of the script that has a lemma of its own. *)
Ltac use_walk lem :=
  eapply wph_mono; [|lem];
  intros [? ?] ? Hx; apply extends_inv in Hx as [-> [? ->]];
  apply wph_start.

Ltac ends_extended :=
  split; [reflexivity|]; eexists; rewrite <- ?app_assoc; reflexivity.

Section Operators.
Context (ok : history -> call -> Prop) (fine : exn -> Prop).
Hypothesis operator_ok : forall h c, is_operator c = true -> ok h c.

Lemma py_add_walk h a b ns : wph ok fine h (py_add a b ns) (extends ns h).
Proof.
  destruct a, b; simpl;
    first [ apply extends_refl
          | split; [by apply operator_ok|intros v; apply extends_step] ].
Qed.

Lemma py_iter_walk h v ns :
  fine (TypeError "iteration") -> wph ok fine h (py_iter v ns) (extends ns h).
Proof.
  intros Hf. destruct v; simpl; try apply extends_refl.
  all: split; [by apply operator_ok|].
  all: intros []; simpl; first [exact Hf|apply extends_step].
Qed.

Lemma comprehension_walk h (g : value -> script value) l ns :
  (forall h x ns, wph ok fine h (g x ns) (extends ns h)) ->
  wph ok fine h (comprehension g l ns) (extends ns h).
Proof.
  intros Hg. revert h. induction l as [|x l IH]; intros h; simpl.
  - apply extends_refl.
  - unfold mbind, script_mbind, script_bind.
    apply wph_bind. eapply wph_mono; [|apply Hg].
    intros [y ?] h1 H1. apply extends_inv in H1 as [-> [l1 ->]].
    apply wph_bind. eapply wph_mono; [|apply IH].
    intros [ys ?] h2 H2. apply extends_inv in H2 as [-> [l2 ->]].
    simpl. split; [done|]. exists (l1 ++ l2). by rewrite app_assoc.
Qed.
End Operators.

(** One step of a script: to its next call, its end, or the next part
    that has a lemma of its own. *)
Ltac walk_step okt lemmas inner :=
  head_goal;
  lazymatch goal with
  | |- wph _ _ _ (Ret _) _ => apply wph_ret; cbv beta
  | |- wph _ _ _ (Throw _) _ => first [exact I | split; reflexivity]
  | |- wph _ _ (_ ++ _) (Call _ _) _ =>
      apply wph_call; [okt | intros ?; tidy_history]
  | |- wph _ _ _ (prog_bind _ _) _ => apply wph_bind
  | |- wph _ _ _ (py_add _ _ _) _ => use_walk ltac:(apply py_add_walk; lemmas)
  | |- wph _ _ _ (py_iter _ _) _ => use_walk ltac:(apply py_iter_walk; lemmas)
  | |- wph _ _ _ (comprehension _ _ _) _ =>
      use_walk ltac:(apply comprehension_walk; intros; apply py_add_walk; lemmas)
  | |- wph _ _ _ (prepare_indices _ _ _ _) _ => use_walk inner
  | |- context [@lookup _ _ (gmap string value) _ _ (<[_:=_]> _)] => resolve_goal
  | |- context [@lookup _ _ (gmap string value) _ ?x ?ns] =>
      is_var ns;
      lazymatch goal with
      | E : ns !! x = _ |- _ => rewrite E
      | _ => destruct (ns !! x) eqn:?
      end
  end.

Ltac script_lemmas :=
  first [ apply script_calls_operator | split; reflexivity ].

(** [prepare_indices] in a namespace where [cross] is bound and
    [calculations] is bound to an object made before. *)
Lemma prepare_indices_walk f h a b c ns cross calc :
  ns !! "cross" = Some cross -> ns !! "calculations" = Some calc -> made h calc ->
  wph (script_calls f) (script_error f) h (prepare_indices a b c ns) (extends ns h).
Proof.
  intros Ex Ec [cc Hcc]. apply wph_start. unfold prepare_indices.
  destruct (is_None a), (is_None b), (is_None c).
  all: repeat walk_step solve_script script_lemmas fail.
  all: ends_extended.
Qed.

(** ** The request between the fetches, for every library *)

Lemma split_at_app_is_Some {A} (p : A -> bool) n l l' :
  is_Some (split_at p n l) -> is_Some (split_at p n (l ++ l')).
Proof.
  revert n. induction l as [|x l IH]; intros n; simpl.
  - by intros [? ?].
  - destruct (p x); [destruct n as [|n]|].
    + by eexists.
    + intros H. destruct (split_at p n l) as [y|] eqn:E; [|by destruct H].
      destruct (IH n) as [z Hz]; [by rewrite E|]. rewrite Hz. by eexists.
    + intros H. destruct (split_at p n l) as [y|] eqn:E; [|by destruct H].
      destruct (IH n) as [z Hz]; [by rewrite E|]. rewrite Hz. by eexists.
Qed.

Lemma split_at_log_is_Some {W} (tr : list (@event W)) n :
  is_Some (split_at (fun x : call * outcome => is_method "fetch_market" x.1) n (log tr)) ->
  is_Some (split_at is_fetch n tr).
Proof.
  revert n. induction tr as [|ev tr IH]; intros n; simpl.
  - by intros [? ?].
  - unfold is_fetch at 1. destruct (is_method "fetch_market" (ev_call ev));
      [destruct n as [|n]|].
    + by eexists.
    + intros H.
      destruct (split_at _ n (log tr)) as [y|] eqn:E; [|by destruct H].
      destruct (IH n) as [z Hz]; [by rewrite E|]. rewrite Hz. by eexists.
    + intros H.
      destruct (split_at _ n (log tr)) as [y|] eqn:E; [|by destruct H].
      destruct (IH n) as [z Hz]; [by rewrite E|]. rewrite Hz. by eexists.
Qed.

Ltac any_lemmas := first [ exact I | intros; exact I ].

Lemma prepare_indices_extends h a b c ns :
  wph any_call any_exn h (prepare_indices a b c ns) (extends ns h).
Proof.
  apply wph_start. unfold prepare_indices.
  destruct (is_None a), (is_None b), (is_None c).
  all: repeat walk_step ltac:(exact I) any_lemmas fail.
  all: ends_extended.
Qed.

(** A returning run of an index example has made three fetches. *)
Lemma index_example_fetches (k : bool) ns :
  wph any_call any_exn [] (index_example k ns)
    (fun _ h =>
       is_Some (split_at (fun x : call * outcome => is_method "fetch_market" x.1) 2 h)).
Proof.
  apply wph_start. destruct k; unfold index_example, index_example_1, index_example_2.
  all: repeat walk_step ltac:(exact I) any_lemmas ltac:(apply prepare_indices_extends).
  all: repeat lazymatch goal with
       | |- is_Some (split_at _ _ ((_ ++ _) ++ _)) => apply split_at_app_is_Some
       end.
  all: vm_compute; by eexists.
Qed.

(** C5, as the spec has it: at the Bloomberg total-return fetch every
    field of the request other than the three reassigned ones still
    holds the value given at construction.  What a field holds is up to
    [MarketDataRequest]: against a library whose request keeps its
    tickers as a list, the request of the second index example, made
    with [tickers = 'EURUSD'], holds [['EURUSD']] when the third fetch is
    made. *)
Lemma request_fields_not_as_given : ~ fields_as_given Listing.lib Mock.attr.
Proof.
  intros H.
  destruct listing_third_fetch as [[pre e]|] eqn:Hs;
    [|revert Hs; vm_compute; discriminate].
  destruct (H false market_namespace (Mock.World 1 []) _ _ _ pre e
              (triple_eta listing_run) Hs)
    as (kw & market & req & Hh & _ & _ & _ & Hattr & _).
  assert (Some (pre, e) = listing_third_fetch) as Hc by done.
  clear Hs. vm_compute in Hc. injection Hc as -> ->.
  vm_compute in Hh. injection Hh as <- <-.
  specialize (Hattr "tickers" (VStr "EURUSD")).
  vm_compute in Hattr.
  assert (Some (VList [VStr "EURUSD"]) = Some (VStr "EURUSD")) as Hf; [|discriminate Hf].
  apply Hattr; [repeat constructor|discriminate|discriminate].
Qed.

Section Requests.
Context {W : Type} (lib : call -> W -> outcome * W).

Ltac retargeted_so := eexists _, _, _; repeat split; reflexivity.

(** C5, amended: in each index example, run in any namespace against any
    library, take the third [fetch_market] call of the run (the
    Bloomberg total-return fetch) and the calls before it.  The request
    was made first, with [start_date], [finish_date], [data_source],
    [cut], [category], [tickers], [fx_vol_tenor], [cache_algo] and
    [base_depos_currencies]; the two fetches before and this one are
    given that request; and the only attribute assignments before it are
    [abstract_curve = None], [category = 'fx-tot'] and [cut = 'NYC'] on
    that request, in that order: the script assigns no other field.  A
    run that returns has made that third fetch. *)
Theorem request_retargeted_only (k : bool) (ns : namespace) w tr res w' :
  run lib (index_example k ns) w = (tr, res, w') ->
  (forall pre e, split_at is_fetch 2 tr = Some (pre, e) -> retargeted pre e) /\
  (forall r, res = Ok r -> is_Some (split_at is_fetch 2 tr)).
Proof.
  intros H. split.
  - intros pre e Hs. destruct k; unfold index_example in H.
    + stepping H Hs. all: retargeted_so.
    + stepping H Hs. all: retargeted_so.
  - intros r Hr. apply split_at_log_is_Some.
    destruct (wph_sound _ _ lib _ [] _ w tr res w' (index_example_fetches k ns) H)
      as (_ & HQ & _).
    exact (HQ r Hr).
Qed.
End Requests.

Lemma request_retargeted_only_witness :
  (exists pre e, sample_third_fetch_1 = Some (pre, e) /\ retargeted pre e) /\
  (exists pre e, sample_third_fetch = Some (pre, e) /\ retargeted pre e).
Proof.
  split.
  - destruct sample_third_fetch_1 as [[pre e]|] eqn:Hs.
    + exists pre, e. split; [reflexivity|].
      exact (proj1 (request_retargeted_only sample_lib true charted_namespace
                      (Mock.World 2 []) _ _ _ (triple_eta sample_index_run_1))
               pre e Hs).
    + exfalso. revert Hs. vm_compute. discriminate.
  - destruct sample_third_fetch as [[pre e]|] eqn:Hs.
    + exists pre, e. split; [reflexivity|].
      exact (proj1 (request_retargeted_only sample_lib false market_namespace
                      (Mock.World 1 []) _ _ _ (triple_eta sample_index_run))
               pre e Hs).
    + exfalso. revert Hs. vm_compute. discriminate.
Defined.

(** ** The example blocks *)

Ltac enter_block :=
  intros (? & ? & Em & Ec & [? ?] & [? ?]); apply wph_start.

Ltac known_kept :=
  lazymatch goal with
  | Em : _ !! "market" = Some ?m, Ec : _ !! "chart" = Some ?c |- known _ _ =>
      exists m, c; cbn [snd];
      split; [rewrite !lookup_insert_ne by discriminate; exact Em|];
      split; [rewrite !lookup_insert_ne by discriminate; exact Ec|];
      split; eexists; elem_search
  end.

Ltac block_ends :=
  split; [known_kept|];
  split; [eexists _, _, _, _; split; [elem_search|find_chain]|];
  eexists; rewrite <- ?app_assoc; reflexivity.

(** [prepare_indices] where an index example calls it: [cross] and
    [calculations] were assigned earlier in the example. *)
Ltac calculations_made :=
  eapply prepare_indices_walk; [lookup_tac|lookup_tac|find_made].

Ltac walk_block :=
  enter_block; repeat walk_step solve_script script_lemmas calculations_made;
  block_ends.

Lemma pricing_example_1_walk h ns :
  known ns h ->
  wph (script_calls PricingExamples) (script_error PricingExamples) h (pricing_example_1 ns)
    (block_done PricingExamples h).
Proof. unfold pricing_example_1. walk_block. Qed.

Lemma pricing_example_2_walk h ns :
  known ns h ->
  wph (script_calls PricingExamples) (script_error PricingExamples) h (pricing_example_2 ns)
    (block_done PricingExamples h).
Proof. unfold pricing_example_2. walk_block. Qed.

Lemma pricing_example_3_walk h ns :
  known ns h ->
  wph (script_calls PricingExamples) (script_error PricingExamples) h (pricing_example_3 ns)
    (block_done PricingExamples h).
Proof. unfold pricing_example_3. walk_block. Qed.

Lemma pricing_example_4_walk h ns :
  known ns h ->
  wph (script_calls PricingExamples) (script_error PricingExamples) h (pricing_example_4 ns)
    (block_done PricingExamples h).
Proof. unfold pricing_example_4. walk_block. Qed.

Lemma pricing_example_5_walk h ns :
  known ns h ->
  wph (script_calls PricingExamples) (script_error PricingExamples) h (pricing_example_5 ns)
    (block_done PricingExamples h).
Proof. unfold pricing_example_5. walk_block. Qed.

Lemma index_example_1_walk h ns :
  known ns h ->
  wph (script_calls IndicesExamples) (script_error IndicesExamples) h (index_example_1 ns)
    (block_done IndicesExamples h).
Proof. unfold index_example_1. walk_block. Qed.

Lemma index_example_2_walk h ns :
  known ns h ->
  wph (script_calls IndicesExamples) (script_error IndicesExamples) h (index_example_2 ns)
    (block_done IndicesExamples h).
Proof. unfold index_example_2. walk_block. Qed.

(** ** The whole scripts *)

(** An example under its [if]: skipped, it leaves everything as it was. *)
Lemma when_walk f (c b : bool) (blk : script unit) h ns :
  (forall h ns, known ns h ->
     wph (script_calls f) (script_error f) h (blk ns) (block_done f h)) ->
  known ns h -> (b = true -> completed f h) ->
  wph (script_calls f) (script_error f) h (when c blk ns) (blocks_done f (b || c) h).
Proof.
  intros Hblk Hk Hb. destruct c; simpl.
  - eapply wph_mono; [|apply Hblk, Hk].
    intros [[] ns'] h' (Hk' & Hd & l & ->). split; [done|]. split; [done|by eexists].
  - split; [done|]. split; [by rewrite orb_false_r|]. exists []. by rewrite app_nil_r.
Qed.

Lemma enabled_pricing n :
  enabled PricingExamples n = true ->
  (false || ((n =? 1)%Z || (n =? 0)%Z) || ((n =? 2)%Z || (n =? 0)%Z) ||
   ((n =? 3)%Z || (n =? 0)%Z) || ((n =? 4)%Z || (n =? 0)%Z) ||
   ((n =? 5)%Z || (n =? 0)%Z)) = true.
Proof.
  intros H. apply andb_true_iff in H as [H1 H2].
  apply Z.leb_le in H1, H2.
  assert (n = 0 \/ n = 1 \/ n = 2 \/ n = 3 \/ n = 4 \/ n = 5)%Z
    as [->|[->|[->|[->|[->| ->]]]]] by lia; reflexivity.
Qed.

Lemma enabled_indices n :
  enabled IndicesExamples n = true ->
  (false || ((n =? 1)%Z || (n =? 0)%Z) || ((n =? 2)%Z || (n =? 0)%Z)) = true.
Proof.
  intros H. apply andb_true_iff in H as [H1 H2].
  apply Z.leb_le in H1, H2.
  assert (n = 0 \/ n = 1 \/ n = 2)%Z as [->|[->| ->]] by lia; reflexivity.
Qed.

Ltac known_made :=
  eexists _, _; split; [lookup_tac|]; split; [lookup_tac|]; split; eexists; elem_search.

(** Through [if ...: <example>], whose walk is [lem]: the first one
    after the preamble, and one that comes after another. *)
Ltac through_first_when lem :=
  cbv beta; head_goal;
  try (apply wph_bind; head_goal);
  eapply wph_mono;
  [|eapply (when_walk _ _ false);
    [ intros ? ? ?; by apply lem | known_made | intros [=] ]];
  intros [[] ?] ? (? & ? & ? & ->).

Ltac through_when lem :=
  cbv beta; head_goal;
  try (apply wph_bind; head_goal);
  eapply wph_mono;
  [|eapply when_walk; [ intros ? ? ?; by apply lem | eassumption | eassumption ]];
  intros [[] ?] ? (? & ? & ? & ->).

Lemma script_walk f n ns name :
  ns !! "__name__" = Some name ->
  wph (script_calls f) (script_error f) [] (script_of f n ns)
    (fun _ h => enabled f n = true -> completed f h).
Proof.
  intros En. apply wph_start.
  destruct f; unfold script_of, pricing_script, indices_script, pricing_preamble,
    indices_preamble.
  - repeat walk_step solve_script script_lemmas fail.
    through_first_when pricing_example_1_walk.
    through_when pricing_example_2_walk.
    through_when pricing_example_3_walk.
    through_when pricing_example_4_walk.
    through_when pricing_example_5_walk.
    cbv beta. intros He. apply enabled_pricing in He. auto.
  - repeat walk_step solve_script script_lemmas fail.
    through_first_when index_example_1_walk.
    through_when index_example_2_walk.
    cbv beta. intros He. apply enabled_indices in He. auto.
Qed.

(** A script started without [__name__]: it stops at [getLogger]. *)
Lemma script_walk_unnamed f n ns :
  ns !! "__name__" = None ->
  wph (script_calls f) any_exn [] (script_of f n ns) (fun _ _ => False).
Proof.
  intros En. apply wph_start.
  destruct f; unfold script_of, pricing_script, indices_script, pricing_preamble,
    indices_preamble.
  all: repeat walk_step solve_script script_lemmas fail.
Qed.

Lemma script_walk_any f n ns :
  wph (script_calls f) any_exn [] (script_of f n ns)
    (fun _ h => enabled f n = true -> completed f h).
Proof.
  destruct (ns !! "__name__") as [name|] eqn:En.
  - eapply wph_weaken; [..|exact (script_walk f n ns name En)]; done.
  - eapply wph_weaken; [..|exact (script_walk_unnamed f n ns En)]; done.
Qed.

(** ** Logs of the whole scripts *)

(** The settings of [run_example]: one of the numbered examples, all of
    them, or none. *)
Lemma run_example_cases (n : Z) :
  n = 0%Z \/ n = 1%Z \/ n = 2%Z \/ n = 3%Z \/ n = 4%Z \/ n = 5%Z \/
  ((n =? 0)%Z = false /\ (n =? 1)%Z = false /\ (n =? 2)%Z = false /\
   (n =? 3)%Z = false /\ (n =? 4)%Z = false /\ (n =? 5)%Z = false).
Proof.
  destruct (Z.eqb_spec n 0); [by left|].
  destruct (Z.eqb_spec n 1); [by right; left|].
  destruct (Z.eqb_spec n 2); [by right; right; left|].
  destruct (Z.eqb_spec n 3); [by right; right; right; left|].
  destruct (Z.eqb_spec n 4); [by right; right; right; right; left|].
  destruct (Z.eqb_spec n 5); [by right; right; right; right; right; left|].
  by repeat right.
Qed.

(** With no example enabled, only the preamble runs. *)
Lemma recorded_none f n :
  (n =? 0)%Z = false -> (n =? 1)%Z = false -> (n =? 2)%Z = false ->
  (n =? 3)%Z = false -> (n =? 4)%Z = false -> (n =? 5)%Z = false ->
  recorded (script_of f n) = recorded indices_preamble.
Proof.
  intros H0 H1 H2 H3 H4 H5.
  destruct f; unfold recorded, script_of, pricing_script, indices_script;
    rewrite ?H0, ?H1, ?H2, ?H3, ?H4, ?H5; vm_compute; reflexivity.
Qed.

(** Settles a property of [recorded (script_of f n)] for every [f] and
    [n] by running each of the finitely many different scripts. *)
Ltac by_run_example f n tac :=
  destruct (run_example_cases n)
    as [->|[->|[->|[->|[->|[->|(H0 & H1 & H2 & H3 & H4 & H5)]]]]]];
  [ .. | rewrite (recorded_none f n H0 H1 H2 H3 H4 H5) ];
  [ destruct f; tac .. | tac ].

(** Computes the list a [Forall] ranges over and settles each entry. *)
Ltac forall_computed tac :=
  lazymatch goal with
  | |- Forall ?P ?xs =>
      let xs' := eval vm_compute in xs in
      let E := fresh "E" in
      assert (xs = xs') as E by (vm_compute; reflexivity);
      rewrite E; clear E;
      repeat (apply Forall_cons_2; [tac|]); apply Forall_nil_2
  end.

Ltac one_consumer :=
  eexists; split; [vm_compute; reflexivity|reflexivity].

Ltac shown_only :=
  split; [|split];
  [ unfold priced_tables_rendered; forall_computed ltac:(vm_compute; reflexivity)
  | unfold renderings_printed; forall_computed ltac:(vm_compute; reflexivity)
  | unfold index_tables_plotted; forall_computed one_consumer ].

(** In the recorded runs the tables priced, their renderings and the
    indices built go to one call each. *)
Lemma recorded_tables_shown (f : example_file) (n : Z) :
  priced_tables_rendered (recorded (script_of f n)) /\
  renderings_printed (recorded (script_of f n)) /\
  index_tables_plotted (recorded (script_of f n)).
Proof.
  by_run_example f n shown_only.
Qed.

(** Every run of a script, against any library: each call satisfies
    [script_calls], and a run that returns with an example enabled has
    gone through one. *)
Lemma script_run_walked {W} (lib : call -> W -> outcome * W) f n ns w tr res w' :
  run lib (script_of f n ns) w = (tr, res, w') ->
  always (script_calls f) [] (log tr) /\
  (forall r, res = Ok r -> enabled f n = true -> completed f (log tr)).
Proof.
  intros H.
  destruct (wph_sound _ _ lib _ [] _ w tr res w' (script_walk_any f n ns) H)
    as (Ha & HQ & _).
  split; [done|]. intros r Hr. exact (HQ r Hr).
Qed.

(** ** Where the tables go *)

(** C7, as the spec has it: the fetched and computed tables go to
    printing and plotting calls only, and the scripts write no other
    state.  In the pricing script as committed ([run_example = 5]) the
    table fetched by [fetch_market] is handed to [FXVolSurface], which
    neither prints nor plots. *)
Lemma fetched_table_feeds_surface :
  ~ tables_only_shown (recorded (script_of PricingExamples 5)).
Proof.
  intros [H _].
  specialize (H (CallMethod (VObj 4) "fetch_market" [VObj 5] []) (VObj 6)
                (CallFn "FXVolSurface" []
                   [("market_df", VObj 6); ("asset", VStr "EURUSD");
                    ("tenors", VList [VStr "1W"; VStr "1M"; VStr "3M"])])
                (Returned (VObj 7))).
  assert (is_output (CallFn "FXVolSurface" []
                       [("market_df", VObj 6); ("asset", VStr "EURUSD");
                        ("tenors", VList [VStr "1W"; VStr "1M"; VStr "3M"])]) = true)
    as Hout; [|discriminate Hout].
  apply H.
  - apply (list_elem_of_lookup_2 _ 6). vm_compute. reflexivity.
  - reflexivity.
  - apply (list_elem_of_lookup_2 _ 7). vm_compute. reflexivity.
  - reflexivity.
Qed.

(** C7, amended.  In every run of either script, against any library,
    from any namespace and for any setting of [run_example]: an
    [FXVolSurface] is made from a table that [fetch_market] returned;
    market data is fetched from the object [Market] returned, with a
    request [MarketDataRequest] returned; [to_string] is called only on
    a table [price_instrument] returned; [print] is given one value, one of
    the [titles] written in the script or such a rendering; [plot] and
    [plot_chart_with_ret_stats] are given an index
    [create_mult_index_from_prices] returned; and the only attribute
    assignments are those of the index script, [abstract_curve = None],
    [category = 'fx-tot'] and [cut = 'NYC'] on an object
    [MarketDataRequest] returned, and [columns] set to a list on a frame
    [fetch_market] returned.  In the recorded run, where every call
    returns a fresh object, each table [price_instrument] returns goes
    to one call, its own [to_string]; each rendering to one call, a
    [print]; each index [create_mult_index_from_prices] returns to one
    call, the next [create_mult_index_from_prices] or a plotting call. *)
Theorem tables_reach_output {W} (lib : call -> W -> outcome * W)
    (f : example_file) (n : Z) (ns : namespace) w tr res w' :
  run lib (script_of f n ns) w = (tr, res, w') ->
  always sourced [] (log tr) /\
  always (own_writes f) [] (log tr) /\
  priced_tables_rendered (recorded (script_of f n)) /\
  renderings_printed (recorded (script_of f n)) /\
  index_tables_plotted (recorded (script_of f n)).
Proof.
  intros H. destruct (script_run_walked lib f n ns w tr res w' H) as [Ha _].
  split; [eapply always_mono; [|exact Ha]; by intros h c (_ & _ & ?)|].
  split; [eapply always_mono; [|exact Ha]; by intros h c (_ & ? & _)|].
  exact (recorded_tables_shown f n).
Qed.

Lemma tables_reach_output_witness :
  always sourced [] (log (trace_of sample_indices_run)) /\
  always (own_writes IndicesExamples) [] (log (trace_of sample_indices_run)) /\
  priced_tables_rendered (recorded (script_of IndicesExamples 2)) /\
  renderings_printed (recorded (script_of IndicesExamples 2)) /\
  index_tables_plotted (recorded (script_of IndicesExamples 2)).
Proof.
  exact (tables_reach_output sample_lib IndicesExamples 2 initial_namespace
           Mock.empty _ _ _ (triple_eta sample_indices_run)).
Defined.

(** ** The order of the calls *)

(** No entry of the log calls the callable [f]. *)
Lemma not_called f (l : list (call * outcome)) i args kw o :
  existsb (fun e => is_callfn f e.1) l = false ->
  l !! i = Some (CallFn f args kw, o) -> False.
Proof.
  intros Hn Hi. apply list_elem_of_lookup_2 in Hi.
  assert (existsb (fun e => is_callfn f e.1) l = true) as Ht; [|congruence].
  apply existsb_exists. exists (CallFn f args kw, o). split.
  - by apply list_elem_of_In.
  - simpl. apply String.eqb_refl.
Qed.

(** C9, as the spec has it: each enabled block makes a request, fetches
    with it, makes an [FXVolSurface] from the fetched data, makes the
    pricer or curve, and then calls its methods.  The index script as
    committed ([run_example = 2]) never makes an [FXVolSurface]. *)
Lemma index_example_makes_no_surface :
  ~ stated_order (recorded (script_of IndicesExamples 2)).
Proof.
  intros (i1 & i2 & i3 & i4 & kw1 & req & market & df & kw3 & surface & cls & kw4 & obj
          & _ & _ & H3 & _).
  eapply not_called; [|exact H3]. vm_compute. reflexivity.
Qed.

(** C9, amended.  In every run of either script, against any library,
    from any namespace and for any setting of [run_example] ([0], which
    enables every example, included), whether the run returns or is cut
    short by an exception: the receiver of each method call was returned
    by an earlier call; [price_instrument] is called only on a pricer
    that [FXOptionsPricer] returned for a surface that [FXVolSurface]
    returned for the data that [fetch_market] returned for a request
    that [MarketDataRequest] returned, these four calls having been made
    in this order before it; [construct_total_return_index] and
    [apply_tc_to_total_return_index] are called only on a curve that
    [FXOptionsCurve] returned after such a request and fetch; and the
    index script makes no [FXVolSurface].  A run that returns with
    [run_example] set to [0] or to the number of an example of the
    script has made such a chain of calls and a pricing call (pricing
    script) or an index construction (index script) on its pricer or
    curve. *)
Theorem examples_call_order {W} (lib : call -> W -> outcome * W)
    (f : example_file) (n : Z) (ns : namespace) w tr res w' :
  run lib (script_of f n ns) w = (tr, res, w') ->
  always (in_order f) [] (log tr) /\
  (forall r, res = Ok r -> enabled f n = true -> completed f (log tr)).
Proof.
  intros H. destruct (script_run_walked lib f n ns w tr res w' H) as [Ha HQ].
  split; [|exact HQ].
  eapply always_mono; [|exact Ha]. by intros h c (? & _).
Qed.

Lemma examples_call_order_witness :
  always (in_order PricingExamples) [] (log (trace_of sample_pricing_run)) /\
  (forall r, result_of sample_pricing_run = Ok r ->
             enabled PricingExamples 0 = true ->
             completed PricingExamples (log (trace_of sample_pricing_run))).
Proof.
  exact (examples_call_order sample_lib PricingExamples 0 initial_namespace
           Mock.empty _ _ _ (triple_eta sample_pricing_run)).
Defined.

(** * Further properties of the scripts *)

(** ** Exceptions *)



(** ** No example enabled *)







(** ** [prepare_indices] *)

Section PrepareIndicesRuns.
Context {W : Type} (lib : call -> W -> outcome * W).






End PrepareIndicesRuns.



